(** * roster_compare.py: a shallow embedding and its specification

    The script fetches two season rosters of one team, turns the forwards
    and the goalies of each into a set of rendered names, and prints the
    two differences and the intersection of the sets.

    The embedding follows the script line by line.  What the script takes
    from the Python runtime and from the [requests] library is modelled
    next to it: JSON values, the exceptions of the operations used,
    standard output as the list of the strings given to [print], sets of
    strings as [gset string].  A Python [str] is a [string] holding its
    UTF-8 bytes; byte-wise lexicographic order on UTF-8 is code-point
    order, which is the order Python compares [str] values with.

    The script is embedded twice: with [print] on a standard output that
    can encode every string ([main]), and with [print_to] on a stream
    that raises [UnicodeEncodeError] on the strings it cannot encode
    ([main_to]).  The second run is the first one cut at the first such
    string ([main_on_stream]). *)

From Stdlib Require Import ZArith Ascii String.
From stdpp Require Import base tactics option list sorting gmap sets fin_sets strings pretty.

Local Open Scope Z_scope.
Set Warnings "-register-all".

(** ** Python values and exceptions *)

(** What [Response.json()] can return.  A [dict] keeps its items in
    insertion order; its keys are distinct, and lookup finds the item of
    a key. *)
Inductive pyval : Type :=
  | PNone
  | PBool (b : bool)
  | PInt (z : Z)
  | PFloat (m e : Z)
  | PStr (s : string)
  | PList (l : list pyval)
  | PDict (d : list (string * pyval)).

(** The exceptions the script can die of. *)
Inductive exn : Type :=
  | ConnectionError
  | JSONDecodeError
  | AttributeError
  | TypeError
  | KeyError (key : string)
  | UnicodeEncodeError.

(** A computation that cannot print: it returns or raises. *)
Definition Result (A : Type) : Type := (exn + A)%type.

Definition result_bind {A B} (f : A → Result B) (m : Result A) : Result B :=
  match m with
  | inl e => inl e
  | inr a => f a
  end.

#[global] Instance Result_ret : MRet Result := λ A a, inr a.
#[global] Instance Result_bind : MBind Result := λ A B f m, result_bind f m.

Definition is_ok {A} (m : Result A) : bool :=
  match m with
  | inr _ => true
  | inl _ => false
  end.

Fixpoint dict_lookup (d : list (string * pyval)) (k : string) : option pyval :=
  match d with
  | [] => None
  | (k', v) :: d' => if decide (k' = k) then Some v else dict_lookup d' k
  end.

(** [v[k]] for a [str] key [k]: only a [dict] can be subscripted by a
    [str]; a missing key is a [KeyError]. *)
Definition getitem (v : pyval) (k : string) : Result pyval :=
  match v with
  | PDict d =>
      match dict_lookup d k with
      | Some x => inr x
      | None => inl (KeyError k)
      end
  | _ => inl TypeError
  end.

(** [v.get(k, default)]: a method of [dict] only. *)
Definition get (v : pyval) (k : string) (default : pyval) : Result pyval :=
  match v with
  | PDict d =>
      match dict_lookup d k with
      | Some x => inr x
      | None => inr default
      end
  | _ => inl AttributeError
  end.

(** [for p in v]: a list yields its elements, a [dict] its keys, a [str]
    its characters (here one per byte: each is a [str] either way); the
    other values are not iterable. *)
Definition iter (v : pyval) : Result (list pyval) :=
  match v with
  | PList l => inr l
  | PDict d => inr (map (λ kv, PStr kv.1) d)
  | PStr s => inr (map (λ c, PStr (String c EmptyString)) (list_ascii_of_string s))
  | _ => inl TypeError
  end.

(** ** The runtime the script relies on

    [list(s)] walks the hash table of the set [s]; the order depends on
    the hashes of the strings, which CPython salts per process.  The
    script never fixes it, so it is a parameter: any enumeration of the
    set without repetition.  [str_other] is [str(v)] for a value that is
    not a [str], needed when a name component is not a string. *)
Record Runtime : Type := {
  set_iter : gset string → list string;
  set_iter_perm : ∀ s, set_iter s ≡ₚ elements s;
  str_other : pyval → string
}.

(** [f"{v}"] *)
Definition format_value (rt : Runtime) (v : pyval) : string :=
  match v with
  | PStr s => s
  | _ => str_other rt v
  end.

(** [sorted(l)] on strings: a stable merge sort by code-point order. *)
Definition sorted (l : list string) : list string := merge_sort String.le l.

(** [len(s)] *)
Definition len (s : gset string) : Z := Z.of_nat (size s).

(** [a - b] and [a & b] on sets. *)
Definition set_sub (a b : gset string) : gset string := a ∖ b.
Definition set_and (a b : gset string) : gset string := a ∩ b.

(** ** Standard output and the script's monad *)

Record Py (A : Type) : Type := mkPy {
  stdout : list string;
  result : Result A
}.
Arguments mkPy {A} _ _.
Arguments stdout {A} _.
Arguments result {A} _.

Definition py_bind {A B} (f : A → Py B) (m : Py A) : Py B :=
  match result m with
  | inl e => mkPy (stdout m) (inl e)
  | inr a => let m' := f a in mkPy (stdout m ++ stdout m') (result m')
  end.

#[global] Instance Py_ret : MRet Py := λ A a, mkPy [] (inr a).
#[global] Instance Py_bind : MBind Py := λ A B f m, py_bind f m.

(** A step that prints nothing. *)
Definition lift {A} (r : Result A) : Py A := mkPy [] r.

(** [print(s)] on a standard output that can encode every string it is
    given: one entry of standard output per call.  [print_to] below is
    [print] on a stream that cannot. *)
Definition print (s : string) : Py unit := mkPy [s] (inr tt).

(** [for p in l: body] *)
Fixpoint for_ {A} (l : list A) (body : A → Py unit) : Py unit :=
  match l with
  | [] => mret tt
  | p :: l' => body p ;; for_ l' body
  end.

(** The exit status of the interpreter: 0 when the script runs to its end,
    1 when an exception reaches the top level. *)
Definition exit_status {A} (m : Py A) : Z :=
  match result m with
  | inr _ => 0
  | inl _ => 1
  end.

Definition nl : string := String "010"%char EmptyString.

(** ** The network *)

(** What [requests.get] hands back: the status line and the body as
    [Response.json()] decodes it, [None] for a body that is not JSON. *)
Record Response : Type := {
  status_code : Z;
  body_json : option pyval
}.

(** [requests.get(url)]: a response, or the exception of a request that
    got none. *)
Definition Network : Type := string → Result Response.

(** [Response.json()] *)
Definition json (r : Response) : Result pyval :=
  match body_json r with
  | Some v => inr v
  | None => inl JSONDecodeError
  end.

(** ** The script *)

(** Line 4. *)
Definition roster_url (season : string) : string :=
  "https://api-web.nhle.com/v1/roster/UTA/" +:+ season.

(** Lines 3-6. *)
Definition get_roster (net : Network) (season : string) : Result pyval :=
  let url := roster_url season in
  r ← net url;
  json r.

(** [f"{p['firstName']['default']} {p['lastName']['default']}"] *)
Definition player_name (rt : Runtime) (p : pyval) : Result string :=
  first ← getitem p "firstName";
  first_default ← getitem first "default";
  last ← getitem p "lastName";
  last_default ← getitem last "default";
  mret (format_value rt first_default +:+ " " +:+ format_value rt last_default).

(** The names of the records of a sequence, in its order; the first
    record that cannot be rendered raises. *)
Fixpoint render_all (rt : Runtime) (ps : list pyval) : Result (list string) :=
  match ps with
  | [] => mret []
  | p :: ps' =>
      n ← player_name rt p;
      ns ← render_all rt ps';
      mret (n :: ns)
  end.

(** [{f"..." for p in season.get(group, [])}], lines 15, 16, 33, 34. *)
Definition names_of (rt : Runtime) (season : pyval) (group : string)
  : Result (gset string) :=
  seq ← get season group (PList []);
  ps ← iter seq;
  ns ← render_all rt ps;
  mret (list_to_set ns).

(** Lines 18-20. *)
Definition forwards_only (rt : Runtime) (fwd_24 fwd_25 : gset string) : Py unit :=
  print (nl +:+ "24-25 Only (" +:+ pretty (len (set_sub fwd_24 fwd_25)) +:+ "):") ;;
  for_ (sorted (set_iter rt (set_sub fwd_24 fwd_25))) (λ p, print ("  - " +:+ p)).

(** Lines 22-24. *)
Definition forwards_new (rt : Runtime) (fwd_24 fwd_25 : gset string) : Py unit :=
  print (nl +:+ "25-26 New (" +:+ pretty (len (set_sub fwd_25 fwd_24)) +:+ "):") ;;
  for_ (sorted (set_iter rt (set_sub fwd_25 fwd_24))) (λ p, print ("  + " +:+ p)).

(** Lines 26-29. *)
Definition forwards_common (rt : Runtime) (fwd_24 fwd_25 : gset string) : Py unit :=
  print (nl +:+ "Common (" +:+ pretty (len (set_and fwd_24 fwd_25)) +:+ "):") ;;
  for_ (sorted (take 5 (set_iter rt (set_and fwd_24 fwd_25))))
       (λ p, print ("    " +:+ p)) ;;
  print ("    ... and " +:+ pretty (len (set_and fwd_24 fwd_25) - 5) +:+ " more").

(** Lines 36-38. *)
Definition goalies_only (rt : Runtime) (g_24 g_25 : gset string) : Py unit :=
  print (nl +:+ "24-25 Only:") ;;
  for_ (sorted (set_iter rt (set_sub g_24 g_25))) (λ p, print ("  - " +:+ p)).

(** Lines 40-42. *)
Definition goalies_new (rt : Runtime) (g_24 g_25 : gset string) : Py unit :=
  print (nl +:+ "25-26 New:") ;;
  for_ (sorted (set_iter rt (set_sub g_25 g_24))) (λ p, print ("  + " +:+ p)).

(** Lines 44-46. *)
Definition goalies_common (rt : Runtime) (g_24 g_25 : gset string) : Py unit :=
  print (nl +:+ "Common:") ;;
  for_ (sorted (set_iter rt (set_and g_24 g_25))) (λ p, print ("    " +:+ p)).

(** The whole script, lines 8-46. *)
Definition main (rt : Runtime) (net : Network) : Py unit :=
  season_24 ← lift (get_roster net "20242025");
  season_25 ← lift (get_roster net "20252026");
  print (nl +:+ "=== UTAH ROSTER COMPARISON ===" +:+ nl) ;;
  print "FORWARDS:" ;;
  fwd_24 ← lift (names_of rt season_24 "forwards");
  fwd_25 ← lift (names_of rt season_25 "forwards");
  forwards_only rt fwd_24 fwd_25 ;;
  forwards_new rt fwd_24 fwd_25 ;;
  forwards_common rt fwd_24 fwd_25 ;;
  print (nl +:+ nl +:+ "GOALIES:") ;;
  g_24 ← lift (names_of rt season_24 "goalies");
  g_25 ← lift (names_of rt season_25 "goalies");
  goalies_only rt g_24 g_25 ;;
  goalies_new rt g_24 g_25 ;;
  goalies_common rt g_24 g_25.

(** ** Vocabulary of the statements *)

(** A record whose name can be rendered: a [dict] whose [firstName] and
    [lastName] are [dict]s that have a [default]. *)
Definition has_default (v : option pyval) : bool :=
  match v with
  | Some (PDict f) =>
      match dict_lookup f "default" with
      | Some _ => true
      | None => false
      end
  | _ => false
  end.

Definition has_names (p : pyval) : bool :=
  match p with
  | PDict r =>
      has_default (dict_lookup r "firstName") && has_default (dict_lookup r "lastName")
  | _ => false
  end.

(** Two networks that answer every request alike up to the status code. *)
Definition same_bodies (net net' : Network) : Prop :=
  ∀ url,
    match net url, net' url with
    | inr r, inr r' => body_json r = body_json r'
    | inl e, inl e' => e = e'
    | _, _ => False
    end.

Definition is_2xx (code : Z) : bool := bool_decide (200 ≤ code < 300).

(** ** Concrete runtimes, rosters and networks

    Both runtimes enumerate a set without repetition, which is all
    [Runtime] asks: one in increasing order, one in decreasing order.
    They render a value that is not a [str] as an empty text; the rosters
    below hold strings only. *)

Definition rt_ascending : Runtime := {|
  set_iter := λ s, sorted (elements s);
  set_iter_perm := λ s, merge_sort_Permutation String.le (elements s);
  str_other := λ _, EmptyString
|}.

Definition rt_descending : Runtime := {|
  set_iter := λ s, reverse (sorted (elements s));
  set_iter_perm := λ s,
    transitivity (reverse_Permutation (sorted (elements s)))
                 (merge_sort_Permutation String.le (elements s));
  str_other := λ _, EmptyString
|}.

Definition player (first last : string) : pyval :=
  PDict [("id", PInt 8470000);
         ("firstName", PDict [("default", PStr first)]);
         ("lastName", PDict [("default", PStr last)])].

Definition roster (forwards goalies : list pyval) : pyval :=
  PDict [("forwards", PList forwards);
         ("defensemen", PList []);
         ("goalies", PList goalies)].

Definition ok_response (doc : pyval) : Response :=
  {| status_code := 200; body_json := Some doc |}.

(** A network that knows the two URLs of the script. *)
Definition serve (r_24 r_25 : Result Response) : Network :=
  λ url,
    if decide (url = roster_url "20242025") then r_24
    else if decide (url = roster_url "20252026") then r_25
    else inl ConnectionError.

(** The example of the specification: two forwards a season, one shared. *)
Definition example_24 : pyval :=
  roster [player "Alex" "Kerfoot"; player "Clayton" "Keller"]
         [player "Karel" "Vejmelka"].
Definition example_25 : pyval :=
  roster [player "Clayton" "Keller"; player "Dylan" "Guenther"]
         [player "Karel" "Vejmelka"; player "Vitek" "Vanecek";
          player "Jaxson" "Stauber"].
Definition example_net : Network :=
  serve (inr (ok_response example_24)) (inr (ok_response example_25)).

Definition example_g24 : gset string := {[ "Karel Vejmelka" ]}.
Definition example_g25 : gset string :=
  {[ "Karel Vejmelka"; "Vitek Vanecek"; "Jaxson Stauber" ]}.

(** Six forwards who stay. *)
Definition six_forwards : list pyval :=
  [player "Alex" "Kerfoot"; player "Barrett" "Hayton"; player "Clayton" "Keller";
   player "Dylan" "Guenther"; player "Jack" "McBain"; player "Lawson" "Crouse"].
Definition six_net : Network :=
  serve (inr (ok_response (roster six_forwards [])))
        (inr (ok_response (roster six_forwards []))).

Definition six_names : gset string :=
  {[ "Alex Kerfoot"; "Barrett Hayton"; "Clayton Keller";
     "Dylan Guenther"; "Jack McBain"; "Lawson Crouse" ]}.

(** Season B answers 404 with a JSON body. *)
Definition not_found : Response :=
  {| status_code := 404; body_json := Some (PDict []) |}.
Definition net_404 : Network :=
  serve (inr (ok_response example_24)) (inr not_found).

(** Season B answers 404 with a page that is not JSON. *)
Definition not_found_html : Response :=
  {| status_code := 404; body_json := None |}.

Definition net_404_html : Network :=
  serve (inr (ok_response example_24)) (inr not_found_html).

(** A block whose name lines, between its header and [trailer], are
    [prefix] followed by a name, the names and the lines in
    non-decreasing order. *)
Definition prints_sorted (out : list string) (prefix : string)
    (trailer : list string) : Prop :=
  ∃ header names,
    out = header :: (String.app prefix <$> names) ++ trailer ∧
    Sorted String.le names ∧
    Sorted String.le (String.app prefix <$> names).

(** A record without [lastName]. *)
Definition nameless : pyval := PDict [("firstName", PDict [("default", PStr "Alex")])].

(** Networks for the runs that fail after the fetches: a forward of the
    first season, or a goalie of the second, has no [lastName]. *)
Definition nameless_forward_net : Network :=
  serve (inr (ok_response (roster [player "Clayton" "Keller"; nameless] [])))
        (inr (ok_response example_25)).
Definition nameless_goalie_25 : pyval :=
  roster [player "Clayton" "Keller"; player "Dylan" "Guenther"]
         [player "Karel" "Vejmelka"; nameless].
Definition nameless_goalie_net : Network :=
  serve (inr (ok_response example_24)) (inr (ok_response nameless_goalie_25)).

(** The example rosters as the API sends them, with more keys. *)
Definition verbose_24 : list (string * pyval) :=
  [("defensemen", PList [player "Mikhail" "Sergachev"]);
   ("goalies", PList [player "Karel" "Vejmelka"]);
   ("forwards", PList [player "Alex" "Kerfoot"; player "Clayton" "Keller"])].
Definition verbose_net : Network :=
  serve (inr {| status_code := 200; body_json := Some (PDict verbose_24) |})
        (inr (ok_response example_25)).

(** Season A answers with a JSON array. *)
Definition array_net : Network :=
  serve (inr (ok_response (PList []))) (inr (ok_response example_25)).

(** ** The script on a stream that cannot encode every string

    [sys.stdout] encodes each string before it writes it; a string it
    cannot encode (a character outside its encoding, a lone surrogate)
    makes [print] raise [UnicodeEncodeError] and write nothing of it.
    Which strings can be encoded depends on the encoding of the stream,
    so it is a parameter.  The blocks and the script are those above with
    [print_to] for [print]. *)
Definition Encoder : Type := string → bool.

Definition print_to (enc : Encoder) (s : string) : Py unit :=
  if enc s then mkPy [s] (inr tt) else mkPy [] (inl UnicodeEncodeError).

(** Lines 18-20. *)
Definition forwards_only_to (enc : Encoder) (rt : Runtime)
    (fwd_24 fwd_25 : gset string) : Py unit :=
  print_to enc (nl +:+ "24-25 Only (" +:+ pretty (len (set_sub fwd_24 fwd_25)) +:+ "):") ;;
  for_ (sorted (set_iter rt (set_sub fwd_24 fwd_25)))
       (λ p, print_to enc ("  - " +:+ p)).

(** Lines 22-24. *)
Definition forwards_new_to (enc : Encoder) (rt : Runtime)
    (fwd_24 fwd_25 : gset string) : Py unit :=
  print_to enc (nl +:+ "25-26 New (" +:+ pretty (len (set_sub fwd_25 fwd_24)) +:+ "):") ;;
  for_ (sorted (set_iter rt (set_sub fwd_25 fwd_24)))
       (λ p, print_to enc ("  + " +:+ p)).

(** Lines 26-29. *)
Definition forwards_common_to (enc : Encoder) (rt : Runtime)
    (fwd_24 fwd_25 : gset string) : Py unit :=
  print_to enc (nl +:+ "Common (" +:+ pretty (len (set_and fwd_24 fwd_25)) +:+ "):") ;;
  for_ (sorted (take 5 (set_iter rt (set_and fwd_24 fwd_25))))
       (λ p, print_to enc ("    " +:+ p)) ;;
  print_to enc ("    ... and " +:+ pretty (len (set_and fwd_24 fwd_25) - 5) +:+ " more").

(** Lines 36-38. *)
Definition goalies_only_to (enc : Encoder) (rt : Runtime)
    (g_24 g_25 : gset string) : Py unit :=
  print_to enc (nl +:+ "24-25 Only:") ;;
  for_ (sorted (set_iter rt (set_sub g_24 g_25))) (λ p, print_to enc ("  - " +:+ p)).

(** Lines 40-42. *)
Definition goalies_new_to (enc : Encoder) (rt : Runtime)
    (g_24 g_25 : gset string) : Py unit :=
  print_to enc (nl +:+ "25-26 New:") ;;
  for_ (sorted (set_iter rt (set_sub g_25 g_24))) (λ p, print_to enc ("  + " +:+ p)).

(** Lines 44-46. *)
Definition goalies_common_to (enc : Encoder) (rt : Runtime)
    (g_24 g_25 : gset string) : Py unit :=
  print_to enc (nl +:+ "Common:") ;;
  for_ (sorted (set_iter rt (set_and g_24 g_25))) (λ p, print_to enc ("    " +:+ p)).

(** The whole script, lines 8-46. *)
Definition main_to (enc : Encoder) (rt : Runtime) (net : Network) : Py unit :=
  season_24 ← lift (get_roster net "20242025");
  season_25 ← lift (get_roster net "20252026");
  print_to enc (nl +:+ "=== UTAH ROSTER COMPARISON ===" +:+ nl) ;;
  print_to enc "FORWARDS:" ;;
  fwd_24 ← lift (names_of rt season_24 "forwards");
  fwd_25 ← lift (names_of rt season_25 "forwards");
  forwards_only_to enc rt fwd_24 fwd_25 ;;
  forwards_new_to enc rt fwd_24 fwd_25 ;;
  forwards_common_to enc rt fwd_24 fwd_25 ;;
  print_to enc (nl +:+ nl +:+ "GOALIES:") ;;
  g_24 ← lift (names_of rt season_24 "goalies");
  g_25 ← lift (names_of rt season_25 "goalies");
  goalies_only_to enc rt g_24 g_25 ;;
  goalies_new_to enc rt g_24 g_25 ;;
  goalies_common_to enc rt g_24 g_25.

(** The strings of a list up to the first one the stream cannot encode. *)
Fixpoint encodable_prefix (enc : Encoder) (l : list string) : list string :=
  match l with
  | [] => []
  | s :: l' => if enc s then s :: encodable_prefix enc l' else []
  end.

(** A run cut at the first string the stream cannot encode: what was
    printed before it stays, and the run ends there with
    [UnicodeEncodeError]; a run without such a string is left as it is. *)
Definition on_stream {A} (enc : Encoder) (m : Py A) : Py A :=
  if forallb enc (stdout m) then m
  else mkPy (encodable_prefix enc (stdout m)) (inl UnicodeEncodeError).

(** The lines of a report that is printed to its end. *)
Definition report (rt : Runtime) (fwd_24 fwd_25 g_24 g_25 : gset string)
  : list string :=
  [nl +:+ "=== UTAH ROSTER COMPARISON ===" +:+ nl; "FORWARDS:"]
  ++ stdout (forwards_only rt fwd_24 fwd_25)
  ++ stdout (forwards_new rt fwd_24 fwd_25)
  ++ stdout (forwards_common rt fwd_24 fwd_25)
  ++ [nl +:+ nl +:+ "GOALIES:"]
  ++ stdout (goalies_only rt g_24 g_25)
  ++ stdout (goalies_new rt g_24 g_25)
  ++ stdout (goalies_common rt g_24 g_25).

(** The stream can encode every string of a list. *)
Definition encodes_all (enc : Encoder) (l : list string) : Prop :=
  ∀ s, s ∈ l → enc s = true.

(** A stream for ASCII only ([PYTHONIOENCODING=ascii]), and one that
    encodes every string. *)
Definition ascii_only : Encoder :=
  λ s, forallb (λ c, bool_decide (nat_of_ascii c < 128)%nat) (list_ascii_of_string s).
Definition any_text : Encoder := λ _, true.

(** Season B's document has no "goalies". *)
Definition no_goalies_25 : list (string * pyval) :=
  [("forwards", PList [player "Clayton" "Keller"; player "Dylan" "Guenther"]);
   ("defensemen", PList [])].
Definition no_goalies_net : Network :=
  serve (inr (ok_response example_24)) (inr (ok_response (PDict no_goalies_25))).

(** A forward of the first season whose name is not ASCII (the two bytes
    195, 164 are the UTF-8 of a-umlaut). *)
Definition umlaut : string :=
  String (ascii_of_nat 195) (String (ascii_of_nat 164) EmptyString).
Definition valimaki : string := "V" +:+ umlaut +:+ "lim" +:+ umlaut +:+ "ki".
Definition umlaut_net : Network :=
  serve (inr (ok_response (roster [player "Juuso" valimaki] [])))
        (inr (ok_response (roster [] []))).

(** ** Facts about [sorted] *)

Section Sorting.

Lemma sorted_perm (l : list string) : sorted l ≡ₚ l.
Proof. apply merge_sort_Permutation. Qed.

Lemma sorted_Sorted (l : list string) : Sorted String.le (sorted l).
Proof. apply (Sorted_merge_sort String.le). Qed.

Lemma sorted_StronglySorted (l : list string) :
  StronglySorted String.le (sorted l).
Proof. apply (StronglySorted_merge_sort String.le). Qed.

(** The result of [sorted] depends on the elements only, not on the
    order they come in. *)
Lemma sorted_unique (l1 l2 : list string) : l1 ≡ₚ l2 → sorted l1 = sorted l2.
Proof.
  intros Hp. apply (Sorted_unique String.le); auto using sorted_Sorted.
  rewrite !sorted_perm. exact Hp.
Qed.

Lemma sorted_id (l : list string) : Sorted String.le l → sorted l = l.
Proof.
  intros Hs. apply (Sorted_unique String.le); auto using sorted_Sorted, sorted_perm.
Qed.

Lemma sorted_set_iter (rt : Runtime) (s : gset string) :
  sorted (set_iter rt s) = sorted (elements s).
Proof. apply sorted_unique, set_iter_perm. Qed.

Lemma sorted_NoDup (l : list string) : NoDup l → NoDup (sorted l).
Proof. intros Hl. by rewrite sorted_perm. Qed.

Lemma sorted_elem_of (l : list string) (x : string) : x ∈ sorted l ↔ x ∈ l.
Proof. by rewrite sorted_perm. Qed.

Lemma sorted_length (l : list string) : length (sorted l) = length l.
Proof. by rewrite sorted_perm. Qed.

(** A sorted list without repetition is strictly increasing. *)
Lemma StronglySorted_strict (l : list string) :
  StronglySorted String.le l → NoDup l → StronglySorted (strict String.le) l.
Proof.
  induction 1 as [|x l Hl IH Hx]; intros Hnd; constructor.
  - apply IH. by apply NoDup_cons_1_2 in Hnd.
  - apply NoDup_cons_1_1 in Hnd.
    rewrite Forall_forall in Hx |- *. intros y Hy. split; [by apply Hx|].
    intros Hyx. assert (x = y) as -> by (apply (anti_symm String.le); auto).
    done.
Qed.

Lemma sorted_strict (l : list string) :
  NoDup l → StronglySorted (strict String.le) (sorted l).
Proof.
  intros Hl. apply StronglySorted_strict;
    auto using sorted_StronglySorted, sorted_NoDup.
Qed.

(** A common prefix does not change the order of two strings, so a block
    of printed lines is ordered as the names in it. *)
Lemma compare_app (p a b : string) :
  String.compare (p +:+ a) (p +:+ b) = String.compare a b.
Proof.
  induction p as [|c p IH]; [done|].
  simpl. unfold Ascii.compare. by rewrite N.compare_refl.
Qed.

Lemma le_app (p a b : string) : String.le (p +:+ a) (p +:+ b) ↔ String.le a b.
Proof. unfold String.le, String.leb. by rewrite compare_app. Qed.

Lemma Sorted_prefixed (p : string) (l : list string) :
  Sorted String.le l → Sorted String.le (String.app p <$> l).
Proof.
  induction 1 as [|x l Hl IH Hx]; simpl; constructor; [done|].
  destruct Hx; simpl; constructor. by apply le_app.
Qed.

End Sorting.

(** ** Facts about the runtime's enumeration *)

Section Enumeration.
Context (rt : Runtime).

Lemma set_iter_NoDup (s : gset string) : NoDup (set_iter rt s).
Proof. rewrite set_iter_perm. apply NoDup_elements. Qed.

Lemma set_iter_elem_of (s : gset string) (x : string) :
  x ∈ set_iter rt s ↔ x ∈ s.
Proof. rewrite set_iter_perm. apply elem_of_elements. Qed.

Lemma set_iter_length (s : gset string) : length (set_iter rt s) = size s.
Proof. by rewrite set_iter_perm. Qed.

Lemma take_set_iter_NoDup (n : nat) (s : gset string) :
  NoDup (take n (set_iter rt s)).
Proof.
  pose proof (set_iter_NoDup s) as Hnd.
  rewrite <-(take_drop n (set_iter rt s)) in Hnd.
  by apply NoDup_app in Hnd as [? _].
Qed.

Lemma take_set_iter_elem_of (n : nat) (s : gset string) (x : string) :
  x ∈ take n (set_iter rt s) → x ∈ s.
Proof.
  intros Hx. apply set_iter_elem_of.
  rewrite <-(take_drop n (set_iter rt s)). apply elem_of_app. by left.
Qed.

(** Slicing a set of at most [n] elements keeps all of them. *)
Lemma take_set_iter_all (n : nat) (s : gset string) :
  (size s ≤ n)%nat → take n (set_iter rt s) = set_iter rt s.
Proof. intros Hn. apply take_ge. by rewrite set_iter_length. Qed.

Lemma elements_sorted_length (s : gset string) :
  length (sorted (elements s)) = size s.
Proof. by rewrite sorted_length. Qed.

End Enumeration.

(** ** What the blocks of the script print *)

Lemma for_print {A} (l : list A) (f : A → string) :
  for_ l (λ p, print (f p)) = mkPy (f <$> l) (inr tt).
Proof.
  induction l as [|p l IH]; [done|].
  simpl. rewrite IH. done.
Qed.

Section Blocks.
Context (rt : Runtime) (a b : gset string).

Lemma forwards_only_run :
  forwards_only rt a b =
  mkPy ((nl +:+ "24-25 Only (" +:+ pretty (len (set_sub a b)) +:+ "):")
        :: (String.app "  - " <$> sorted (elements (set_sub a b))))
       (inr tt).
Proof. unfold forwards_only. by rewrite for_print, sorted_set_iter. Qed.

Lemma forwards_new_run :
  forwards_new rt a b =
  mkPy ((nl +:+ "25-26 New (" +:+ pretty (len (set_sub b a)) +:+ "):")
        :: (String.app "  + " <$> sorted (elements (set_sub b a))))
       (inr tt).
Proof. unfold forwards_new. by rewrite for_print, sorted_set_iter. Qed.

Lemma forwards_common_run :
  forwards_common rt a b =
  mkPy ((nl +:+ "Common (" +:+ pretty (len (set_and a b)) +:+ "):")
        :: (String.app "    " <$> sorted (take 5 (set_iter rt (set_and a b))))
        ++ ["    ... and " +:+ pretty (len (set_and a b) - 5) +:+ " more"])
       (inr tt).
Proof. unfold forwards_common. by rewrite for_print. Qed.

Lemma goalies_only_run :
  goalies_only rt a b =
  mkPy ((nl +:+ "24-25 Only:")
        :: (String.app "  - " <$> sorted (elements (set_sub a b))))
       (inr tt).
Proof. unfold goalies_only. by rewrite for_print, sorted_set_iter. Qed.

Lemma goalies_new_run :
  goalies_new rt a b =
  mkPy ((nl +:+ "25-26 New:")
        :: (String.app "  + " <$> sorted (elements (set_sub b a))))
       (inr tt).
Proof. unfold goalies_new. by rewrite for_print, sorted_set_iter. Qed.

Lemma goalies_common_run :
  goalies_common rt a b =
  mkPy ((nl +:+ "Common:")
        :: (String.app "    " <$> sorted (elements (set_and a b))))
       (inr tt).
Proof. unfold goalies_common. by rewrite for_print, sorted_set_iter. Qed.

End Blocks.

(** ** How the script runs *)

Section Main.
Context (rt : Runtime) (net : Network).

#[local] Arguments forwards_only : simpl never.
#[local] Arguments forwards_new : simpl never.
#[local] Arguments forwards_common : simpl never.
#[local] Arguments goalies_only : simpl never.
#[local] Arguments goalies_new : simpl never.
#[local] Arguments goalies_common : simpl never.

(** Both fetches come before the first [print]. *)
Lemma main_fetch_24_fails (e : exn) :
  get_roster net "20242025" = inl e → main rt net = mkPy [] (inl e).
Proof. intros H. unfold main. by rewrite H. Qed.

Lemma main_fetch_25_fails (s : pyval) (e : exn) :
  get_roster net "20242025" = inr s →
  get_roster net "20252026" = inl e →
  main rt net = mkPy [] (inl e).
Proof. intros H1 H2. unfold main. by rewrite H1, H2. Qed.

(** A run in which nothing raises. *)
Lemma main_completes (s24 s25 : pyval) (f24 f25 g24 g25 : gset string) :
  get_roster net "20242025" = inr s24 →
  get_roster net "20252026" = inr s25 →
  names_of rt s24 "forwards" = inr f24 →
  names_of rt s25 "forwards" = inr f25 →
  names_of rt s24 "goalies" = inr g24 →
  names_of rt s25 "goalies" = inr g25 →
  main rt net =
  mkPy ([nl +:+ "=== UTAH ROSTER COMPARISON ===" +:+ nl; "FORWARDS:"]
        ++ stdout (forwards_only rt f24 f25)
        ++ stdout (forwards_new rt f24 f25)
        ++ stdout (forwards_common rt f24 f25)
        ++ [nl +:+ nl +:+ "GOALIES:"]
        ++ stdout (goalies_only rt g24 g25)
        ++ stdout (goalies_new rt g24 g25)
        ++ stdout (goalies_common rt g24 g25))
       (inr tt).
Proof.
  intros H1 H2 H3 H4 H5 H6. unfold main.
  rewrite H1, H2. cbn. rewrite H3. cbn. rewrite H4. cbn.
  rewrite forwards_only_run, forwards_new_run, forwards_common_run. cbn.
  rewrite H5. cbn. rewrite H6. cbn.
  rewrite goalies_only_run, goalies_new_run, goalies_common_run. cbn.
  reflexivity.
Qed.

(** The script runs to its end only if nothing raised on the way. *)
Lemma main_ok_inv :
  is_ok (result (main rt net)) = true →
  ∃ s24 s25 f24 f25 g24 g25,
    get_roster net "20242025" = inr s24 ∧
    get_roster net "20252026" = inr s25 ∧
    names_of rt s24 "forwards" = inr f24 ∧
    names_of rt s25 "forwards" = inr f25 ∧
    names_of rt s24 "goalies" = inr g24 ∧
    names_of rt s25 "goalies" = inr g25.
Proof.
  unfold main.
  destruct (get_roster net "20242025") as [e|s24] eqn:H1; [done|].
  destruct (get_roster net "20252026") as [e|s25] eqn:H2; [done|]. cbn.
  destruct (names_of rt s24 "forwards") as [e|f24] eqn:H3; [done|]. cbn.
  destruct (names_of rt s25 "forwards") as [e|f25] eqn:H4; [done|]. cbn.
  rewrite forwards_only_run, forwards_new_run, forwards_common_run. cbn.
  destruct (names_of rt s24 "goalies") as [e|g24] eqn:H5; [done|]. cbn.
  destruct (names_of rt s25 "goalies") as [e|g25] eqn:H6; [done|].
  intros _. by exists s24, s25, f24, f25, g24, g25.
Qed.

Lemma exit_status_is_ok :
  exit_status (main rt net) = if is_ok (result (main rt net)) then 0 else 1.
Proof. unfold exit_status. by destruct (result (main rt net)). Qed.

End Main.

(** ** Facts about name extraction *)

Section Extraction.
Context (rt : Runtime).

Lemma player_name_ok (p : pyval) : is_ok (player_name rt p) = has_names p.
Proof.
  destruct p as [| | | | |l|r]; try done.
  unfold player_name, has_names; cbn.
  destruct (dict_lookup r "firstName") as [[| | | | |l|f]|]; try done; cbn.
  destruct (dict_lookup f "default") as [fd|]; [|done]; cbn.
  destruct (dict_lookup r "lastName") as [[| | | | |l|g]|]; try done; cbn.
  by destruct (dict_lookup g "default").
Qed.

(** On a [dict] record the exception is the [KeyError] of the first key
    that is missing. *)
Lemma player_name_KeyError (r : list (string * pyval)) :
  (dict_lookup r "firstName" = None →
   player_name rt (PDict r) = inl (KeyError "firstName")) ∧
  (∀ f, dict_lookup r "firstName" = Some (PDict f) →
        dict_lookup f "default" = None →
        player_name rt (PDict r) = inl (KeyError "default")) ∧
  (∀ f x, dict_lookup r "firstName" = Some (PDict f) →
          dict_lookup f "default" = Some x →
          dict_lookup r "lastName" = None →
          player_name rt (PDict r) = inl (KeyError "lastName")) ∧
  (∀ f x g, dict_lookup r "firstName" = Some (PDict f) →
            dict_lookup f "default" = Some x →
            dict_lookup r "lastName" = Some (PDict g) →
            dict_lookup g "default" = None →
            player_name rt (PDict r) = inl (KeyError "default")).
Proof.
  unfold player_name. cbn. repeat split.
  - by intros ->.
  - intros f -> Hf. cbn. by rewrite Hf.
  - intros f x -> Hf Hl. cbn. rewrite Hf. cbn. by rewrite Hl.
  - intros f x g -> Hf -> Hg. cbn. rewrite Hf. cbn. by rewrite Hg.
Qed.

Lemma render_all_ok (ps : list pyval) :
  is_ok (render_all rt ps) = forallb has_names ps.
Proof.
  induction ps as [|p ps IH]; [done|]. cbn.
  rewrite <-player_name_ok, <-IH.
  destruct (player_name rt p); [done|]. cbn.
  by destruct (render_all rt ps).
Qed.

(** The rendered list holds exactly the names of the records. *)
Lemma render_all_elem_of (ps : list pyval) (ns : list string) :
  render_all rt ps = inr ns →
  ∀ n, n ∈ ns ↔ ∃ p, p ∈ ps ∧ player_name rt p = inr n.
Proof.
  revert ns. induction ps as [|p ps IH]; intros ns; cbn.
  - intros [= <-] n. split; [by intros ?%elem_of_nil|].
    by intros (q & ?%elem_of_nil & _).
  - destruct (player_name rt p) as [e|m] eqn:Hp; [done|]. cbn.
    destruct (render_all rt ps) as [e|ms]; [done|]. cbn.
    intros [= <-] n. rewrite elem_of_cons, (IH ms eq_refl n). split.
    + intros [->|(q & Hq & Hn)]; [exists p | exists q]; split; auto;
        apply elem_of_cons; auto.
    + intros (q & [->|Hq]%elem_of_cons & Hn).
      * left. rewrite Hp in Hn. by injection Hn.
      * right. by exists q.
Qed.

Lemma render_all_length (ps : list pyval) (ns : list string) :
  render_all rt ps = inr ns → length ns = length ps.
Proof.
  revert ns. induction ps as [|p ps IH]; intros ns; cbn.
  - by intros [= <-].
  - destruct (player_name rt p) as [e|m]; [done|]. cbn.
    destruct (render_all rt ps) as [e|ms]; [done|]. cbn.
    intros [= <-]. cbn. by rewrite (IH ms).
Qed.

(** Reordering the records reorders the rendered names. *)
Lemma render_all_perm (ps ps' : list pyval) :
  ps ≡ₚ ps' →
  ∀ ns, render_all rt ps = inr ns →
        ∃ ns', render_all rt ps' = inr ns' ∧ ns ≡ₚ ns'.
Proof.
  induction 1 as [|p ps ps' _ IH|p q ps|ps ps' ps'' _ IH1 _ IH2]; intros ns; cbn.
  - intros [= <-]. by exists [].
  - destruct (player_name rt p) as [e|m]; [done|]. cbn.
    destruct (render_all rt ps) as [e|ms]; [done|]. cbn.
    intros [= <-]. destruct (IH ms eq_refl) as (ms' & -> & Hms). cbn.
    exists (m :: ms'). split; [done|]. by constructor.
  - destruct (player_name rt q) as [e|m]; [done|]. cbn.
    destruct (player_name rt p) as [e|m']; [done|]. cbn.
    destruct (render_all rt ps) as [e|ms]; [done|]. cbn.
    intros [= <-]. exists (m' :: m :: ms). split; [done|]. by constructor.
  - intros Hns. destruct (IH1 ns Hns) as (ns' & Hns' & Hp1).
    destruct (IH2 ns' Hns') as (ns'' & Hns'' & Hp2).
    exists ns''. split; [done|]. by etrans.
Qed.

Lemma render_all_app (ps qs : list pyval) :
  render_all rt (ps ++ qs) =
  ns ← render_all rt ps; ms ← render_all rt qs; mret (ns ++ ms).
Proof.
  induction ps as [|p ps IH]; cbn.
  - by destruct (render_all rt qs).
  - destruct (player_name rt p) as [e|m]; [done|]. cbn.
    rewrite IH. destruct (render_all rt ps) as [e|ms]; [done|]. cbn.
    by destruct (render_all rt qs).
Qed.

(** The comprehension over a group that is present and is a list. *)
Lemma names_of_list (d : list (string * pyval)) (group : string)
    (recs : list pyval) :
  dict_lookup d group = Some (PList recs) →
  names_of rt (PDict d) group = ns ← render_all rt recs; mret (list_to_set ns).
Proof. intros H. unfold names_of. cbn. by rewrite H. Qed.

Lemma names_of_missing (d : list (string * pyval)) (group : string) :
  dict_lookup d group = None → names_of rt (PDict d) group = inr ∅.
Proof. intros H. unfold names_of. cbn. by rewrite H. Qed.

End Extraction.

(** ** The set comparison *)

(** C5: for all name sets [a] and [b], the three sets the script computes,
    [a - b], [b - a] and [a & b], are pairwise disjoint and their union is
    the union of [a] and [b]; the empty set is treated like any other. *)
Theorem compare_partition (a b : gset string) :
  set_sub a b ## set_sub b a ∧
  set_sub a b ## set_and a b ∧
  set_sub b a ## set_and a b ∧
  set_sub a b ∪ set_sub b a ∪ set_and a b = a ∪ b ∧
  set_sub a ∅ = a ∧ set_sub ∅ a = ∅ ∧ set_and a ∅ = ∅ ∧ set_and ∅ a = ∅.
Proof.
  unfold set_sub, set_and. repeat split.
  - intros x [_ Hb]%elem_of_difference [Hb' _]%elem_of_difference. done.
  - intros x [_ Hb]%elem_of_difference [_ Hb']%elem_of_intersection. done.
  - intros x [_ Ha]%elem_of_difference [Ha' _]%elem_of_intersection. done.
  - apply set_eq. intros x.
    rewrite !elem_of_union, !elem_of_difference, elem_of_intersection.
    destruct (decide (x ∈ a)), (decide (x ∈ b)); tauto.
  - apply difference_empty_L.
  - apply difference_disjoint_L, disjoint_empty_l.
  - apply intersection_empty_r_L.
  - apply intersection_empty_l_L.
Qed.

(** ** Section headers *)

(** C4, as the claim has it, fails on the goalies: two goalies are new
    in the example, their header is "25-26 New:", and no line of the whole
    output reads "25-26 New (2):". *)
Lemma goalies_headers_have_no_count :
  names_of rt_ascending example_24 "goalies" = inr example_g24 ∧
  names_of rt_ascending example_25 "goalies" = inr example_g25 ∧
  size (set_sub example_g25 example_g24) = 2%nat ∧
  stdout (goalies_new rt_ascending example_g24 example_g25)
    = [nl +:+ "25-26 New:"; "  + Jaxson Stauber"; "  + Vitek Vanecek"] ∧
  (nl +:+ "25-26 New (2):") ∉ stdout (main rt_ascending example_net).
Proof.
  split; [by vm_compute|]. split; [by vm_compute|].
  split; [by vm_compute|]. split; [by vm_compute|].
  apply (bool_decide_unpack _). by vm_compute.
Qed.

(** C4, amended: the three headers of the forwards carry the size of
    their set in parentheses, and under "Only" and "New" as many names
    follow; the three headers of the goalies carry no count. *)
Theorem section_headers (rt : Runtime) (a b : gset string) :
  forwards_only rt a b =
    mkPy ((nl +:+ "24-25 Only (" +:+ pretty (Z.of_nat (size (set_sub a b))) +:+ "):")
          :: (String.app "  - " <$> sorted (elements (set_sub a b)))) (inr tt) ∧
  length (sorted (elements (set_sub a b))) = size (set_sub a b) ∧
  forwards_new rt a b =
    mkPy ((nl +:+ "25-26 New (" +:+ pretty (Z.of_nat (size (set_sub b a))) +:+ "):")
          :: (String.app "  + " <$> sorted (elements (set_sub b a)))) (inr tt) ∧
  length (sorted (elements (set_sub b a))) = size (set_sub b a) ∧
  head (stdout (forwards_common rt a b)) =
    Some (nl +:+ "Common (" +:+ pretty (Z.of_nat (size (set_and a b))) +:+ "):") ∧
  head (stdout (goalies_only rt a b)) = Some (nl +:+ "24-25 Only:") ∧
  head (stdout (goalies_new rt a b)) = Some (nl +:+ "25-26 New:") ∧
  head (stdout (goalies_common rt a b)) = Some (nl +:+ "Common:").
Proof.
  rewrite forwards_only_run, forwards_new_run, forwards_common_run,
    goalies_only_run, goalies_new_run, goalies_common_run.
  rewrite !elements_sorted_length. by repeat split.
Qed.

(** ** Order of the printed names *)

Lemma prints_sorted_intro (header prefix : string) (names trailer : list string) :
  Sorted String.le names →
  prints_sorted (header :: (String.app prefix <$> names) ++ trailer) prefix trailer.
Proof.
  intros Hs. exists header, names. auto using Sorted_prefixed.
Qed.

(** C8: in each of the six sub-lists ("Only", "New", "Common" of the
    forwards and of the goalies) the names printed, and so the lines that
    hold them, are in non-decreasing order of [String.le], the byte-wise
    (code-point) comparison of the rendered names. *)
Theorem sublists_sorted (rt : Runtime) (a b : gset string) :
  prints_sorted (stdout (forwards_only rt a b)) "  - " [] ∧
  prints_sorted (stdout (forwards_new rt a b)) "  + " [] ∧
  prints_sorted (stdout (forwards_common rt a b)) "    "
    ["    ... and " +:+ pretty (len (set_and a b) - 5) +:+ " more"] ∧
  prints_sorted (stdout (goalies_only rt a b)) "  - " [] ∧
  prints_sorted (stdout (goalies_new rt a b)) "  + " [] ∧
  prints_sorted (stdout (goalies_common rt a b)) "    " [].
Proof.
  rewrite forwards_only_run, forwards_new_run, forwards_common_run,
    goalies_only_run, goalies_new_run, goalies_common_run. cbn [stdout].
  repeat split;
    first [ apply prints_sorted_intro, sorted_Sorted
          | rewrite <-(app_nil_r (_ <$> _));
            apply prints_sorted_intro, sorted_Sorted ].
Qed.

(** ** The sample of common forwards *)

(** C10: under "Common" the forwards block prints its header, then at
    most five names (five, or all of them when there are fewer), then the
    "... and" line; the names are pairwise distinct, all belong to the
    common set, and are in strictly increasing order. *)
Theorem forwards_common_sample (rt : Runtime) (a b : gset string) :
  ∃ names,
    forwards_common rt a b =
      mkPy ((nl +:+ "Common (" +:+ pretty (len (set_and a b)) +:+ "):")
            :: (String.app "    " <$> names)
            ++ ["    ... and " +:+ pretty (len (set_and a b) - 5) +:+ " more"])
           (inr tt) ∧
    length names = (5 `min` size (set_and a b))%nat ∧
    NoDup names ∧
    (∀ x, x ∈ names → x ∈ set_and a b) ∧
    StronglySorted (strict String.le) names.
Proof.
  exists (sorted (take 5 (set_iter rt (set_and a b)))).
  split; [apply forwards_common_run|].
  split; [by rewrite sorted_length, length_take, set_iter_length|].
  split; [apply sorted_NoDup, take_set_iter_NoDup|].
  split.
  - intros x Hx. apply (take_set_iter_elem_of rt 5).
    by apply sorted_elem_of.
  - apply sorted_strict, take_set_iter_NoDup.
Qed.

(** With at most five common forwards the slice keeps them all, and the
    "... and" line follows all the same, its number zero or negative. *)
Lemma forwards_common_small (rt : Runtime) (a b : gset string) :
  (size (set_and a b) ≤ 5)%nat →
  forwards_common rt a b =
    mkPy ((nl +:+ "Common (" +:+ pretty (len (set_and a b)) +:+ "):")
          :: (String.app "    " <$> sorted (elements (set_and a b)))
          ++ ["    ... and " +:+ pretty (len (set_and a b) - 5) +:+ " more"])
         (inr tt)
  ∧ len (set_and a b) - 5 ≤ 0.
Proof.
  intros Hn. rewrite forwards_common_run, take_set_iter_all, sorted_set_iter by done.
  split; [done|]. unfold len. lia.
Qed.

(** C1, on the example of the specification (one common forward): the
    name is printed, and after it the line "... and -4 more", whatever
    order the runtime enumerates sets in. *)
Theorem one_common_forward_prints_more_line (rt : Runtime) :
  main rt example_net =
    mkPy [nl +:+ "=== UTAH ROSTER COMPARISON ===" +:+ nl;
          "FORWARDS:";
          nl +:+ "24-25 Only (1):"; "  - Alex Kerfoot";
          nl +:+ "25-26 New (1):"; "  + Dylan Guenther";
          nl +:+ "Common (1):"; "    Clayton Keller";
          "    ... and -4 more";
          nl +:+ nl +:+ "GOALIES:";
          nl +:+ "24-25 Only:";
          nl +:+ "25-26 New:"; "  + Jaxson Stauber"; "  + Vitek Vanecek";
          nl +:+ "Common:"; "    Karel Vejmelka"]
         (inr tt).
Proof.
  rewrite (main_completes rt example_net example_24 example_25
             {[ "Alex Kerfoot"; "Clayton Keller" ]}
             {[ "Clayton Keller"; "Dylan Guenther" ]}
             example_g24 example_g25) by (vm_compute; reflexivity).
  rewrite forwards_only_run, forwards_new_run, goalies_only_run,
    goalies_new_run, goalies_common_run.
  destruct (forwards_common_small rt {[ "Alex Kerfoot"; "Clayton Keller" ]}
              {[ "Clayton Keller"; "Dylan Guenther" ]}) as [-> _];
    [vm_compute; lia|].
  vm_compute. reflexivity.
Qed.

(** C2, on six forwards present in both seasons, with a runtime that
    enumerates sets in decreasing order: the five names printed under
    "Common" are the five largest, "Alex Kerfoot" is left out, while the
    five smallest names of the common set start with it. *)
Theorem five_printed_are_not_the_smallest :
  main rt_descending six_net =
    mkPy [nl +:+ "=== UTAH ROSTER COMPARISON ===" +:+ nl;
          "FORWARDS:";
          nl +:+ "24-25 Only (0):";
          nl +:+ "25-26 New (0):";
          nl +:+ "Common (6):";
          "    Barrett Hayton"; "    Clayton Keller"; "    Dylan Guenther";
          "    Jack McBain"; "    Lawson Crouse";
          "    ... and 1 more";
          nl +:+ nl +:+ "GOALIES:";
          nl +:+ "24-25 Only:";
          nl +:+ "25-26 New:";
          nl +:+ "Common:"]
         (inr tt) ∧
  names_of rt_descending (roster six_forwards []) "forwards" = inr six_names ∧
  set_and six_names six_names = six_names ∧
  take 5 (sorted (elements six_names)) =
    ["Alex Kerfoot"; "Barrett Hayton"; "Clayton Keller"; "Dylan Guenther";
     "Jack McBain"].
Proof. repeat split; by vm_compute. Qed.

(** ** Fetching *)

Lemma get_roster_same_bodies (net net' : Network) (season : string) :
  same_bodies net net' → get_roster net' season = get_roster net season.
Proof.
  intros H. unfold get_roster. specialize (H (roster_url season)). cbn.
  destruct (net (roster_url season)) as [e|r], (net' (roster_url season)) as [e'|r'];
    try done; cbn.
  - by rewrite H.
  - unfold json. by rewrite H.
Qed.

Lemma get_roster_no_json (net : Network) (season : string) :
  (∀ r, net (roster_url season) = inr r → body_json r = None) →
  is_ok (get_roster net season) = false.
Proof.
  intros H. unfold get_roster. cbn.
  destruct (net (roster_url season)) as [e|r]; [done|]. cbn.
  unfold json. by rewrite (H r eq_refl).
Qed.

(** C3, as the claim has it, fails: season B is answered 404 with a JSON
    object for a body; the script prints its whole report and ends with
    exit status 0. *)
Lemma status_404_with_json_is_reported :
  net_404 (roster_url "20252026") = inr not_found ∧
  status_code not_found = 404 ∧
  is_2xx (status_code not_found) = false ∧
  main rt_ascending net_404 =
    mkPy [nl +:+ "=== UTAH ROSTER COMPARISON ===" +:+ nl;
          "FORWARDS:";
          nl +:+ "24-25 Only (2):"; "  - Alex Kerfoot"; "  - Clayton Keller";
          nl +:+ "25-26 New (0):";
          nl +:+ "Common (0):";
          "    ... and -5 more";
          nl +:+ nl +:+ "GOALIES:";
          nl +:+ "24-25 Only:"; "  - Karel Vejmelka";
          nl +:+ "25-26 New:";
          nl +:+ "Common:"]
         (inr tt) ∧
  exit_status (main rt_ascending net_404) = 0.
Proof. repeat split; vm_compute; reflexivity. Qed.

(** C3, amended: when a fetch of either season gets no response, or a
    response whose body is not JSON, the script prints nothing and ends
    with exit status 1; the status code of a response is never looked at,
    so two networks that differ in status codes only give the same run. *)
Theorem fetch_failure_is_fatal_status_is_ignored (rt : Runtime) (net : Network) :
  (∀ season,
     season ∈ ["20242025"; "20252026"] →
     (∀ r, net (roster_url season) = inr r → body_json r = None) →
     stdout (main rt net) = [] ∧ exit_status (main rt net) = 1) ∧
  (∀ net', same_bodies net net' → main rt net' = main rt net).
Proof.
  split.
  - intros season Hseason Hnone.
    apply get_roster_no_json in Hnone.
    destruct (get_roster net "20242025") as [e|s24] eqn:H24.
    { by rewrite (main_fetch_24_fails rt net e). }
    destruct (get_roster net "20252026") as [e|s25] eqn:H25.
    { by rewrite (main_fetch_25_fails rt net s24 e). }
    apply elem_of_cons in Hseason as [->| ->%list_elem_of_singleton].
    + by rewrite H24 in Hnone.
    + by rewrite H25 in Hnone.
  - intros net' Hsame. unfold main.
    by rewrite !(get_roster_same_bodies net net').
Qed.

Lemma fetch_failure_is_fatal_status_is_ignored_witness :
  "20252026" ∈ ["20242025"; "20252026"] ∧
  (∀ r, net_404_html (roster_url "20252026") = inr r → body_json r = None) ∧
  stdout (main rt_ascending net_404_html) = [] ∧
  exit_status (main rt_ascending net_404_html) = 1.
Proof.
  assert ("20252026" ∈ ["20242025"; "20252026"]) as Hin
    by (apply elem_of_cons; right; apply elem_of_cons; by left).
  assert (∀ r, net_404_html (roster_url "20252026") = inr r → body_json r = None)
    as Hnone by (intros r [= <-]; reflexivity).
  split; [exact Hin|]. split; [exact Hnone|].
  exact (proj1 (fetch_failure_is_fatal_status_is_ignored rt_ascending net_404_html)
           "20252026" Hin Hnone).
Defined.

(** ** Name extraction *)

(** C6, as the claim has it, fails in its second half: the document of
    season B has no "goalies", its extraction gives the empty set, and
    the goalies section of the report is not empty: it lists
    "  - Karel Vejmelka" under "Only". *)
Lemma missing_goalies_section_lists_a_name :
  dict_lookup no_goalies_25 "goalies" = None ∧
  names_of rt_ascending (PDict no_goalies_25) "goalies" = inr ∅ ∧
  names_of rt_ascending example_24 "goalies" = inr example_g24 ∧
  main rt_ascending no_goalies_net =
    mkPy [nl +:+ "=== UTAH ROSTER COMPARISON ===" +:+ nl;
          "FORWARDS:";
          nl +:+ "24-25 Only (1):"; "  - Alex Kerfoot";
          nl +:+ "25-26 New (1):"; "  + Dylan Guenther";
          nl +:+ "Common (1):"; "    Clayton Keller";
          "    ... and -4 more";
          nl +:+ nl +:+ "GOALIES:";
          nl +:+ "24-25 Only:"; "  - Karel Vejmelka";
          nl +:+ "25-26 New:";
          nl +:+ "Common:"]
         (inr tt).
Proof. split_and!; vm_compute; reflexivity. Qed.

(** C6, amended: for a roster document (a [dict]) without the key of the
    group, the extraction returns the empty set and raises nothing.  The
    set it returns then puts no name into the report: whatever the other
    season's set is, the sub-list of the names of this season alone
    ("Only" when it is the first season, "New" when it is the second)
    and the goalies' "Common" list are their header and nothing else, and
    the forwards' "Common" header shows the count 0. *)
Theorem missing_group_contributes_no_name (rt : Runtime)
    (d : list (string * pyval)) (group : string) :
  dict_lookup d group = None →
  names_of rt (PDict d) group = inr ∅ ∧
  ∀ s other,
    names_of rt (PDict d) group = inr s →
    goalies_only rt s other = mkPy [nl +:+ "24-25 Only:"] (inr tt) ∧
    goalies_new rt other s = mkPy [nl +:+ "25-26 New:"] (inr tt) ∧
    goalies_common rt s other = mkPy [nl +:+ "Common:"] (inr tt) ∧
    goalies_common rt other s = mkPy [nl +:+ "Common:"] (inr tt) ∧
    forwards_only rt s other = mkPy [nl +:+ "24-25 Only (0):"] (inr tt) ∧
    forwards_new rt other s = mkPy [nl +:+ "25-26 New (0):"] (inr tt) ∧
    head (stdout (forwards_common rt s other)) = Some (nl +:+ "Common (0):") ∧
    head (stdout (forwards_common rt other s)) = Some (nl +:+ "Common (0):").
Proof.
  intros Hd. split; [by apply names_of_missing|].
  intros s other Hs. rewrite (names_of_missing rt d group Hd) in Hs.
  injection Hs as <-.
  rewrite !goalies_only_run, !goalies_new_run, !goalies_common_run,
    !forwards_only_run, !forwards_new_run, !forwards_common_run.
  assert (set_sub ∅ other = ∅) as -> by apply difference_disjoint_L, disjoint_empty_l.
  assert (set_and ∅ other = ∅) as -> by apply intersection_empty_l_L.
  assert (set_and other ∅ = ∅) as -> by apply intersection_empty_r_L.
  rewrite elements_empty. split_and!; reflexivity.
Qed.

Lemma missing_group_contributes_no_name_witness :
  names_of rt_ascending (PDict no_goalies_25) "goalies" = inr ∅ ∧
  goalies_new rt_ascending example_g24 ∅ = mkPy [nl +:+ "25-26 New:"] (inr tt).
Proof.
  split.
  - exact (proj1 (missing_group_contributes_no_name rt_ascending
                    no_goalies_25 "goalies" eq_refl)).
  - exact (proj1 (proj2
             (proj2 (missing_group_contributes_no_name rt_ascending
                       no_goalies_25 "goalies" eq_refl)
                ∅ example_g24
                (proj1 (missing_group_contributes_no_name rt_ascending
                          no_goalies_25 "goalies" eq_refl))))).
Defined.

Lemma names_of_bad_record (rt : Runtime) (d : list (string * pyval))
    (group : string) (recs : list pyval) (p : pyval) :
  dict_lookup d group = Some (PList recs) →
  p ∈ recs → has_names p = false →
  is_ok (names_of rt (PDict d) group) = false.
Proof.
  intros Hd Hp Hbad. rewrite (names_of_list rt d group recs Hd).
  assert (is_ok (render_all rt recs) = false) as Hr.
  { rewrite render_all_ok. apply not_true_is_false. intros Hall.
    apply forallb_forall with (x := p) in Hall; [congruence|].
    by apply list_elem_of_In. }
  by destruct (render_all rt recs).
Qed.

(** C7: a record of a group's list whose [firstName] or [lastName] is
    missing, or has no [default] ([has_names] is false), cannot be
    rendered: its name is an exception, not a substituted value; the
    extraction of that group raises, and the script, once both fetches
    succeeded, ends with the exception and exit status 1. *)
Theorem missing_name_field_is_fatal (rt : Runtime) (net : Network)
    (season_24 season_25 season : pyval) (group : string)
    (d : list (string * pyval)) (recs : list pyval) (p : pyval) :
  get_roster net "20242025" = inr season_24 →
  get_roster net "20252026" = inr season_25 →
  season ∈ [season_24; season_25] →
  group ∈ ["forwards"; "goalies"] →
  season = PDict d →
  dict_lookup d group = Some (PList recs) →
  p ∈ recs →
  has_names p = false →
  is_ok (player_name rt p) = false ∧
  is_ok (names_of rt season group) = false ∧
  is_ok (result (main rt net)) = false ∧
  exit_status (main rt net) = 1.
Proof.
  intros H24 H25 Hseason Hgroup -> Hd Hp Hbad.
  pose proof (names_of_bad_record rt d group recs p Hd Hp Hbad) as Hnames.
  assert (is_ok (result (main rt net)) = false) as Hmain.
  { apply not_true_is_false. intros Hok.
    apply main_ok_inv in Hok
      as (s24 & s25 & f24 & f25 & g24 & g25 & E1 & E2 & E3 & E4 & E5 & E6).
    rewrite H24 in E1. rewrite H25 in E2.
    injection E1 as <-. injection E2 as <-.
    apply elem_of_cons in Hseason as [Hs|Hs%list_elem_of_singleton];
      apply elem_of_cons in Hgroup as [->| ->%list_elem_of_singleton];
      rewrite <-Hs in *;
      first [ rewrite E3 in Hnames | rewrite E4 in Hnames
            | rewrite E5 in Hnames | rewrite E6 in Hnames ];
      done. }
  split; [by rewrite player_name_ok|].
  split; [done|]. split; [done|].
  by rewrite exit_status_is_ok, Hmain.
Qed.

Lemma missing_name_field_is_fatal_witness :
  is_ok (player_name rt_ascending nameless) = false ∧
  is_ok (names_of rt_ascending (roster [player "Clayton" "Keller"; nameless] [])
           "forwards") = false ∧
  is_ok (result (main rt_ascending
           (serve (inr (ok_response (roster [player "Clayton" "Keller"; nameless] [])))
                  (inr (ok_response example_25))))) = false ∧
  exit_status (main rt_ascending
           (serve (inr (ok_response (roster [player "Clayton" "Keller"; nameless] [])))
                  (inr (ok_response example_25)))) = 1.
Proof.
  apply (missing_name_field_is_fatal rt_ascending
           (serve (inr (ok_response (roster [player "Clayton" "Keller"; nameless] [])))
                  (inr (ok_response example_25)))
           (roster [player "Clayton" "Keller"; nameless] []) example_25
           (roster [player "Clayton" "Keller"; nameless] []) "forwards"
           [("forwards", PList [player "Clayton" "Keller"; nameless]);
            ("defensemen", PList []); ("goalies", PList [])]
           [player "Clayton" "Keller"; nameless] nameless).
  - vm_compute. reflexivity.
  - vm_compute. reflexivity.
  - apply elem_of_cons. left. reflexivity.
  - apply elem_of_cons. left. reflexivity.
  - reflexivity.
  - reflexivity.
  - apply elem_of_cons. right. apply elem_of_cons. left. reflexivity.
  - reflexivity.
Defined.

Lemma is_ok_ext {A} (m m' : Result A) :
  (∀ a, m = inr a ↔ m' = inr a) → is_ok m = is_ok m'.
Proof.
  destruct m as [e|a], m' as [e'|a']; intros H; try done.
  - by pose proof (proj2 (H a') eq_refl).
  - by pose proof (proj1 (H a) eq_refl).
Qed.

Lemma size_list_to_set_le (ns : list string) :
  (size (list_to_set ns : gset string) ≤ length ns)%nat.
Proof.
  induction ns as [|n ns IH]; cbn.
  - by rewrite size_empty.
  - rewrite size_union_alt, size_singleton.
    assert (size (list_to_set ns ∖ {[n]} : gset string)
            ≤ size (list_to_set ns : gset string))%nat as Hle.
    { apply subseteq_size. intros x [Hx _]%elem_of_difference. exact Hx. }
    lia.
Qed.

(** C9: the extraction does not depend on the order of the records: when
    the group's list of one document is a permutation of the other's, one
    extraction succeeds exactly when the other does, and with the same
    set; the set holds exactly the names rendered from the records, so
    records with the same rendered name give one element, and listing
    every record twice changes nothing. *)
Theorem names_of_order_insensitive (rt : Runtime)
    (d d' d2 : list (string * pyval)) (group : string)
    (recs recs' : list pyval) :
  dict_lookup d group = Some (PList recs) →
  dict_lookup d' group = Some (PList recs') →
  recs ≡ₚ recs' →
  dict_lookup d2 group = Some (PList (recs ++ recs)) →
  (∀ s, names_of rt (PDict d) group = inr s ↔ names_of rt (PDict d') group = inr s) ∧
  is_ok (names_of rt (PDict d) group) = is_ok (names_of rt (PDict d') group) ∧
  (∀ s, names_of rt (PDict d) group = inr s →
        (∀ n, n ∈ s ↔ ∃ p, p ∈ recs ∧ player_name rt p = inr n) ∧
        (size s ≤ length recs)%nat) ∧
  names_of rt (PDict d2) group = names_of rt (PDict d) group.
Proof.
  intros Hd Hd' Hperm Hd2.
  rewrite (names_of_list rt d group recs Hd), (names_of_list rt d' group recs' Hd'),
    (names_of_list rt d2 group _ Hd2).
  assert (∀ l l' s, l ≡ₚ l' →
            (ns ← render_all rt l; mret (list_to_set ns)) = inr s →
            (ns ← render_all rt l'; mret (list_to_set ns))
              = (inr s : Result (gset string))) as Hdir.
  { intros l l' s Hl. destruct (render_all rt l) as [e|ns] eqn:Hns; [done|].
    destruct (render_all_perm rt l l' Hl ns Hns) as (ns' & -> & Hnn).
    cbn. intros [= <-]. f_equal. apply set_eq. intros x.
    rewrite !elem_of_list_to_set. by rewrite Hnn. }
  assert (∀ s, (ns ← render_all rt recs; mret (list_to_set ns)) = inr s ↔
               (ns ← render_all rt recs'; mret (list_to_set ns))
                 = (inr s : Result (gset string))) as Hiff.
  { intros s. split; apply Hdir; [done | by symmetry]. }
  split; [exact Hiff|]. split; [|split].
  - by apply is_ok_ext.
  - intros s. destruct (render_all rt recs) as [e|ns] eqn:Hns; [done|].
    cbn. intros [= <-]. split.
    + intros n. rewrite elem_of_list_to_set. by apply render_all_elem_of.
    + rewrite <-(render_all_length rt recs ns Hns).
      apply size_list_to_set_le.
  - rewrite render_all_app.
    destruct (render_all rt recs) as [e|ns]; [done|]. cbn.
    f_equal. apply set_eq. intros x.
    rewrite !elem_of_list_to_set, elem_of_app. tauto.
Qed.

Lemma names_of_order_insensitive_witness :
  is_ok (names_of rt_ascending
           (PDict [("forwards", PList [player "Clayton" "Keller";
                                       player "Alex" "Kerfoot";
                                       player "Clayton" "Keller"])]) "forwards")
  = is_ok (names_of rt_ascending
             (PDict [("forwards", PList [player "Alex" "Kerfoot";
                                         player "Clayton" "Keller";
                                         player "Clayton" "Keller"])]) "forwards").
Proof.
  exact (proj1 (proj2
    (names_of_order_insensitive rt_ascending
       [("forwards", PList [player "Clayton" "Keller"; player "Alex" "Kerfoot";
                            player "Clayton" "Keller"])]
       [("forwards", PList [player "Alex" "Kerfoot"; player "Clayton" "Keller";
                            player "Clayton" "Keller"])]
       [("forwards", PList ([player "Clayton" "Keller"; player "Alex" "Kerfoot";
                             player "Clayton" "Keller"]
                            ++ [player "Clayton" "Keller"; player "Alex" "Kerfoot";
                                player "Clayton" "Keller"]))]
       "forwards"
       [player "Clayton" "Keller"; player "Alex" "Kerfoot"; player "Clayton" "Keller"]
       [player "Alex" "Kerfoot"; player "Clayton" "Keller"; player "Clayton" "Keller"]
       eq_refl eq_refl
       (perm_swap (player "Alex" "Kerfoot") (player "Clayton" "Keller")
                  [player "Clayton" "Keller"])
       eq_refl))).
Defined.


(** * Further properties of the script *)

(** ** What the sub-lists hold *)

Lemma sorted_elements_elem_of (s : gset string) (x : string) :
  x ∈ sorted (elements s) ↔ x ∈ s.
Proof. by rewrite sorted_elem_of, elem_of_elements. Qed.

Lemma sorted_elements_NoDup (s : gset string) : NoDup (sorted (elements s)).
Proof. apply sorted_NoDup, NoDup_elements. Qed.

Lemma size_list_to_set_NoDup (l : list string) :
  NoDup l → size (list_to_set l : gset string) = length l.
Proof.
  induction 1 as [|x l Hx Hl IH]; cbn.
  - apply size_empty.
  - rewrite size_union, size_singleton, IH; [done|].
    intros y ->%elem_of_singleton Hy%elem_of_list_to_set. done.
Qed.

(** X4: exchanging the two seasons exchanges the names listed under
    "Only" and under "New" (and the counts in the forwards headers); the
    goalies' "Common" block stays as it is. *)
Theorem swapping_seasons_swaps_only_and_new (rt : Runtime) (a b : gset string) :
  ∃ names,
    stdout (forwards_only rt a b) =
      (nl +:+ "24-25 Only (" +:+ pretty (Z.of_nat (length names)) +:+ "):")
      :: (String.app "  - " <$> names) ∧
    stdout (forwards_new rt b a) =
      (nl +:+ "25-26 New (" +:+ pretty (Z.of_nat (length names)) +:+ "):")
      :: (String.app "  + " <$> names) ∧
    stdout (goalies_only rt a b) =
      (nl +:+ "24-25 Only:") :: (String.app "  - " <$> names) ∧
    stdout (goalies_new rt b a) =
      (nl +:+ "25-26 New:") :: (String.app "  + " <$> names) ∧
    goalies_common rt b a = goalies_common rt a b.
Proof.
  exists (sorted (elements (set_sub a b))).
  rewrite forwards_only_run, forwards_new_run, goalies_only_run, goalies_new_run,
    !goalies_common_run, elements_sorted_length.
  split_and!; try done.
  unfold set_and. by rewrite (comm_L (∩) b a).
Qed.

Lemma split_by_other (a b : gset string) : a = set_sub a b ∪ set_and a b.
Proof.
  unfold set_sub, set_and. apply set_eq. intros x.
  rewrite elem_of_union, elem_of_difference, elem_of_intersection.
  destruct (decide (x ∈ b)); tauto.
Qed.

Lemma len_split (a b : gset string) : len (set_sub a b) + len (set_and a b) = len a.
Proof.
  unfold len. rewrite (split_by_other a b) at 3.
  rewrite size_union; [lia|].
  unfold set_sub, set_and.
  intros x [_ Hb]%elem_of_difference [_ Hb']%elem_of_intersection. done.
Qed.

(** X7: the counts in the three forwards headers add up: "Only" and
    "Common" to the size of the first roster, "New" and "Common" to the
    size of the second, all three to the number of names in either. *)
Theorem header_counts_add_up (a b : gset string) :
  len (set_sub a b) + len (set_and a b) = len a ∧
  len (set_sub b a) + len (set_and a b) = len b ∧
  len (set_sub a b) + len (set_sub b a) + len (set_and a b) = len (a ∪ b).
Proof.
  split; [apply len_split|]. split.
  - rewrite <-(len_split b a). unfold set_and. by rewrite (comm_L (∩) b a).
  - pose proof (len_split a b) as H1. pose proof (len_split (a ∪ b) a) as H2.
    assert (set_sub (a ∪ b) a = set_sub b a) as E1.
    { unfold set_sub. apply set_eq. intros x.
      rewrite !elem_of_difference, elem_of_union. tauto. }
    assert (set_and (a ∪ b) a = a) as E2.
    { unfold set_and. apply set_eq. intros x.
      rewrite elem_of_intersection, elem_of_union. tauto. }
    rewrite E1, E2 in H2. lia.
Qed.

(** ** Extraction: what a group may hold *)

Lemma names_of_all_named (rt : Runtime) (recs : list pyval) :
  is_ok (ns ← render_all rt recs; mret (list_to_set ns) : Result (gset string))
  = forallb has_names recs.
Proof. rewrite <-(render_all_ok rt). by destruct (render_all rt recs). Qed.

(** X8: what the extraction does with the value stored under the group's
    key.  A list is accepted exactly when every record of it can be
    rendered.  [null], a boolean or a number raises [TypeError] (only a
    missing key counts as an empty group).  A string or an object is
    iterated: empty, it gives the empty set; otherwise its first
    character or key is a [str], which has no ["firstName"], and the
    extraction raises [TypeError]. *)
Theorem names_of_by_group_type (rt : Runtime) (d : list (string * pyval))
    (group : string) (v : pyval) :
  dict_lookup d group = Some v →
  match v with
  | PList recs => is_ok (names_of rt (PDict d) group) = forallb has_names recs
  | PNone | PBool _ | PInt _ | PFloat _ _ =>
      names_of rt (PDict d) group = inl TypeError
  | PStr s =>
      names_of rt (PDict d) group
      = if decide (s = EmptyString) then inr ∅ else inl TypeError
  | PDict g =>
      names_of rt (PDict d) group
      = match g with [] => inr ∅ | _ :: _ => inl TypeError end
  end.
Proof.
  intros Hd. destruct v as [| | | |s|recs|g].
  1-4: unfold names_of; cbn; by rewrite Hd.
  - unfold names_of. cbn. rewrite Hd. cbn. by destruct s.
  - rewrite (names_of_list rt d group recs Hd). apply names_of_all_named.
  - unfold names_of. cbn. rewrite Hd. cbn. by destruct g.
Qed.

Lemma names_of_by_group_type_witness :
  names_of rt_ascending (PDict [("forwards", PList []); ("goalies", PNone)]) "goalies"
  = inl TypeError.
Proof.
  exact (names_of_by_group_type rt_ascending
           [("forwards", PList []); ("goalies", PNone)] "goalies" PNone eq_refl).
Defined.

(** X9: the name of a record is read from the [default] of its
    [firstName] and of its [lastName] and from nothing else: two records
    that agree there have the same name, whatever their other keys (an
    id, a number) and the other entries of the two name objects (other
    locales) are. *)
Theorem name_reads_defaults_only (rt : Runtime)
    (r r' f f' l l' : list (string * pyval)) :
  dict_lookup r "firstName" = Some (PDict f) →
  dict_lookup r' "firstName" = Some (PDict f') →
  dict_lookup r "lastName" = Some (PDict l) →
  dict_lookup r' "lastName" = Some (PDict l') →
  dict_lookup f "default" = dict_lookup f' "default" →
  dict_lookup l "default" = dict_lookup l' "default" →
  player_name rt (PDict r) = player_name rt (PDict r').
Proof.
  intros Hf Hf' Hl Hl' Efd Eld. unfold player_name. cbn.
  rewrite Hf, Hf'. cbn. rewrite Efd.
  destruct (dict_lookup f' "default"); [|done]. cbn.
  rewrite Hl, Hl'. cbn. by rewrite Eld.
Qed.

Lemma name_reads_defaults_only_witness :
  player_name rt_ascending
    (PDict [("id", PInt 8479343);
            ("firstName", PDict [("default", PStr "Clayton")]);
            ("lastName", PDict [("default", PStr "Keller")])])
  = player_name rt_ascending
      (PDict [("lastName", PDict [("cs", PStr "Kellerova"); ("default", PStr "Keller")]);
              ("sweaterNumber", PInt 9);
              ("firstName", PDict [("default", PStr "Clayton")])]).
Proof.
  exact (name_reads_defaults_only rt_ascending
           [("id", PInt 8479343);
            ("firstName", PDict [("default", PStr "Clayton")]);
            ("lastName", PDict [("default", PStr "Keller")])]
           [("lastName", PDict [("cs", PStr "Kellerova"); ("default", PStr "Keller")]);
            ("sweaterNumber", PInt 9);
            ("firstName", PDict [("default", PStr "Clayton")])]
           [("default", PStr "Clayton")] [("default", PStr "Clayton")]
           [("default", PStr "Keller")]
           [("cs", PStr "Kellerova"); ("default", PStr "Keller")]
           eq_refl eq_refl eq_refl eq_refl eq_refl eq_refl).
Defined.

(** ** Runs that fail, and what they print before *)

Section Failures.
Context (rt : Runtime) (net : Network).

#[local] Arguments forwards_only : simpl never.
#[local] Arguments forwards_new : simpl never.
#[local] Arguments forwards_common : simpl never.
#[local] Arguments goalies_only : simpl never.
#[local] Arguments goalies_new : simpl never.
#[local] Arguments goalies_common : simpl never.

(** X10: the fetches fail in their order and print nothing.  The
    exception of the first season's request, or [JSONDecodeError] for its
    body, ends the script whatever the second season would answer; when
    the first season decodes, the same holds for the second. *)
Theorem first_failing_fetch_ends_the_script :
  (∀ e, net (roster_url "20242025") = inl e → main rt net = mkPy [] (inl e)) ∧
  (∀ r, net (roster_url "20242025") = inr r → body_json r = None →
        main rt net = mkPy [] (inl JSONDecodeError)) ∧
  (∀ r doc e, net (roster_url "20242025") = inr r → body_json r = Some doc →
              net (roster_url "20252026") = inl e →
              main rt net = mkPy [] (inl e)) ∧
  (∀ r doc r', net (roster_url "20242025") = inr r → body_json r = Some doc →
               net (roster_url "20252026") = inr r' → body_json r' = None →
               main rt net = mkPy [] (inl JSONDecodeError)).
Proof.
  split_and!.
  - intros e H. apply main_fetch_24_fails. unfold get_roster. cbn. by rewrite H.
  - intros r H Hb. apply main_fetch_24_fails. unfold get_roster, json. cbn.
    rewrite H. cbn. by rewrite Hb.
  - intros r doc e H Hb H'. apply (main_fetch_25_fails rt net doc).
    + unfold get_roster, json. cbn. rewrite H. cbn. by rewrite Hb.
    + unfold get_roster. cbn. by rewrite H'.
  - intros r doc r' H Hb H' Hb'. apply (main_fetch_25_fails rt net doc).
    + unfold get_roster, json. cbn. rewrite H. cbn. by rewrite Hb.
    + unfold get_roster, json. cbn. rewrite H'. cbn. by rewrite Hb'.
Qed.

(** X11: when both rosters were fetched and the extraction of the
    forwards raises (for the first season, or for the second after the
    first went through), the output is the banner and "FORWARDS:", and
    the script ends with that exception, exit status 1. *)
Theorem failure_in_forwards (season_24 season_25 : pyval) (e : exn) :
  get_roster net "20242025" = inr season_24 →
  get_roster net "20252026" = inr season_25 →
  names_of rt season_24 "forwards" = inl e
  ∨ (is_ok (names_of rt season_24 "forwards") = true
     ∧ names_of rt season_25 "forwards" = inl e) →
  main rt net =
    mkPy [nl +:+ "=== UTAH ROSTER COMPARISON ===" +:+ nl; "FORWARDS:"] (inl e) ∧
  exit_status (main rt net) = 1.
Proof.
  intros H24 H25 Hfail.
  assert (main rt net =
    mkPy [nl +:+ "=== UTAH ROSTER COMPARISON ===" +:+ nl; "FORWARDS:"] (inl e)) as ->;
    [|done].
  unfold main. rewrite H24, H25. cbn.
  destruct Hfail as [->|[Hok ->]]; [done|].
  destruct (names_of rt season_24 "forwards"); done.
Qed.

(** On a stream that encodes everything: when the forwards went through
    and the extraction of the goalies raises, the forwards report and the
    "GOALIES:" header come first. *)
Lemma main_fails_in_goalies (season_24 season_25 : pyval)
    (fwd_24 fwd_25 : gset string) (e : exn) :
  get_roster net "20242025" = inr season_24 →
  get_roster net "20252026" = inr season_25 →
  names_of rt season_24 "forwards" = inr fwd_24 →
  names_of rt season_25 "forwards" = inr fwd_25 →
  names_of rt season_24 "goalies" = inl e
  ∨ (is_ok (names_of rt season_24 "goalies") = true
     ∧ names_of rt season_25 "goalies" = inl e) →
  main rt net =
    mkPy ([nl +:+ "=== UTAH ROSTER COMPARISON ===" +:+ nl; "FORWARDS:"]
          ++ stdout (forwards_only rt fwd_24 fwd_25)
          ++ stdout (forwards_new rt fwd_24 fwd_25)
          ++ stdout (forwards_common rt fwd_24 fwd_25)
          ++ [nl +:+ nl +:+ "GOALIES:"])
         (inl e) ∧
  exit_status (main rt net) = 1.
Proof.
  intros H24 H25 Hf24 Hf25 Hfail.
  match goal with |- ?m = ?o ∧ _ => assert (m = o) as ->; [|done] end.
  unfold main. rewrite H24, H25. cbn. rewrite Hf24. cbn. rewrite Hf25. cbn.
  rewrite forwards_only_run, forwards_new_run, forwards_common_run. cbn.
  destruct Hfail as [->|[Hok ->]].
  - cbn. by rewrite <-!app_assoc.
  - destruct (names_of rt season_24 "goalies"); [done|]. cbn.
    by rewrite <-!app_assoc.
Qed.

End Failures.

Lemma first_failing_fetch_ends_the_script_witness :
  main rt_ascending net_404_html = mkPy [] (inl JSONDecodeError).
Proof.
  exact (proj2 (proj2 (proj2
           (first_failing_fetch_ends_the_script rt_ascending net_404_html)))
           (ok_response example_24) example_24 not_found_html
           eq_refl eq_refl eq_refl eq_refl).
Defined.

Lemma failure_in_forwards_witness :
  main rt_ascending nameless_forward_net =
    mkPy [nl +:+ "=== UTAH ROSTER COMPARISON ===" +:+ nl; "FORWARDS:"]
         (inl (KeyError "lastName")) ∧
  exit_status (main rt_ascending nameless_forward_net) = 1.
Proof.
  apply (failure_in_forwards rt_ascending nameless_forward_net
           (roster [player "Clayton" "Keller"; nameless] []) example_25
           (KeyError "lastName")).
  - vm_compute. reflexivity.
  - vm_compute. reflexivity.
  - left. vm_compute. reflexivity.
Defined.

(** ** What a run depends on *)

Lemma names_of_same_group (rt : Runtime) (d d' : list (string * pyval))
    (group : string) :
  dict_lookup d' group = dict_lookup d group →
  names_of rt (PDict d') group = names_of rt (PDict d) group.
Proof. intros H. unfold names_of. cbn. by rewrite H. Qed.

(** X13: of a roster document the script reads the keys "forwards" and
    "goalies" only: two pairs of documents that agree under these two
    keys (and differ in their defensemen, in any other key, or in the
    order of the keys) give the same run. *)
Theorem other_keys_are_ignored (rt : Runtime) (net net' : Network)
    (d24 d24' d25 d25' : list (string * pyval)) :
  get_roster net "20242025" = inr (PDict d24) →
  get_roster net' "20242025" = inr (PDict d24') →
  get_roster net "20252026" = inr (PDict d25) →
  get_roster net' "20252026" = inr (PDict d25') →
  dict_lookup d24' "forwards" = dict_lookup d24 "forwards" →
  dict_lookup d25' "forwards" = dict_lookup d25 "forwards" →
  dict_lookup d24' "goalies" = dict_lookup d24 "goalies" →
  dict_lookup d25' "goalies" = dict_lookup d25 "goalies" →
  main rt net' = main rt net.
Proof.
  intros H24 H24' H25 H25' Ef24 Ef25 Eg24 Eg25.
  unfold main. rewrite H24, H24', H25, H25'.
  cbn -[names_of forwards_only forwards_new forwards_common
        goalies_only goalies_new goalies_common].
  by rewrite (names_of_same_group rt d24 d24' "forwards" Ef24),
    (names_of_same_group rt d25 d25' "forwards" Ef25),
    (names_of_same_group rt d24 d24' "goalies" Eg24),
    (names_of_same_group rt d25 d25' "goalies" Eg25).
Qed.

Lemma other_keys_are_ignored_witness :
  main rt_ascending verbose_net = main rt_ascending example_net.
Proof.
  apply (other_keys_are_ignored rt_ascending example_net verbose_net
           [("forwards", PList [player "Alex" "Kerfoot"; player "Clayton" "Keller"]);
            ("defensemen", PList []);
            ("goalies", PList [player "Karel" "Vejmelka"])]
           verbose_24
           [("forwards", PList [player "Clayton" "Keller"; player "Dylan" "Guenther"]);
            ("defensemen", PList []);
            ("goalies", PList [player "Karel" "Vejmelka"; player "Vitek" "Vanecek";
                               player "Jaxson" "Stauber"])]
           [("forwards", PList [player "Clayton" "Keller"; player "Dylan" "Guenther"]);
            ("defensemen", PList []);
            ("goalies", PList [player "Karel" "Vejmelka"; player "Vitek" "Vanecek";
                               player "Jaxson" "Stauber"])]);
    reflexivity.
Defined.

Lemma names_of_no_object (rt : Runtime) (season : pyval) (group : string) :
  (∀ d, season ≠ PDict d) → names_of rt season group = inl AttributeError.
Proof. intros H. destruct season as [| | | | | |d]; try done. by destruct (H d). Qed.

(** X14: a fetched document that is not a JSON object (an array, a
    string, a number, [null]) has no [get]: the script prints the banner
    and "FORWARDS:" and ends with [AttributeError], exit status 1, also
    when it is the second season's document and the first one's forwards
    went through. *)
Theorem document_that_is_no_object (rt : Runtime) (net : Network)
    (season_24 season_25 : pyval) :
  get_roster net "20242025" = inr season_24 →
  get_roster net "20252026" = inr season_25 →
  (∀ d, season_24 ≠ PDict d)
  ∨ (is_ok (names_of rt season_24 "forwards") = true ∧ ∀ d, season_25 ≠ PDict d) →
  main rt net =
    mkPy [nl +:+ "=== UTAH ROSTER COMPARISON ===" +:+ nl; "FORWARDS:"]
         (inl AttributeError) ∧
  exit_status (main rt net) = 1.
Proof.
  intros H24 H25 Hbad.
  match goal with |- ?m = ?o ∧ _ => assert (m = o) as ->; [|done] end.
  unfold main. rewrite H24, H25.
  cbn -[names_of forwards_only forwards_new forwards_common
        goalies_only goalies_new goalies_common].
  destruct Hbad as [Hno|[Hok Hno]].
  - by rewrite (names_of_no_object rt season_24 "forwards" Hno).
  - destruct (names_of rt season_24 "forwards") as [e|f24]; [done|].
    cbn -[names_of forwards_only forwards_new forwards_common
          goalies_only goalies_new goalies_common].
    by rewrite (names_of_no_object rt season_25 "forwards" Hno).
Qed.

Lemma document_that_is_no_object_witness :
  main rt_ascending array_net =
    mkPy [nl +:+ "=== UTAH ROSTER COMPARISON ===" +:+ nl; "FORWARDS:"]
         (inl AttributeError) ∧
  exit_status (main rt_ascending array_net) = 1.
Proof.
  apply (document_that_is_no_object rt_ascending array_net (PList []) example_25).
  - reflexivity.
  - reflexivity.
  - left. intros d. discriminate.
Defined.

(** * The script on a stream that cannot encode every string *)

Section Stream.
Context (enc : Encoder).

Lemma encodable_prefix_all (l : list string) :
  forallb enc l = true → encodable_prefix enc l = l.
Proof.
  induction l as [|s l IH]; [done|]. cbn.
  destruct (enc s); [|done]. cbn. intros H. by rewrite IH.
Qed.

Lemma encodable_prefix_app (l1 l2 : list string) :
  encodable_prefix enc (l1 ++ l2) =
  if forallb enc l1 then l1 ++ encodable_prefix enc l2 else encodable_prefix enc l1.
Proof.
  induction l1 as [|s l1 IH]; [done|]. cbn.
  destruct (enc s); [|done]. cbn. rewrite IH. by destruct (forallb enc l1).
Qed.

Lemma forallb_encodes_all (l : list string) :
  forallb enc l = true ↔ encodes_all enc l.
Proof.
  unfold encodes_all. rewrite forallb_forall.
  split; intros H s Hs; apply H; by apply list_elem_of_In.
Qed.

Lemma on_stream_encodes_all {A} (m : Py A) :
  encodes_all enc (stdout m) → on_stream enc m = m.
Proof. intros H%forallb_encodes_all. unfold on_stream. by rewrite H. Qed.

Lemma on_stream_nil {A} (r : Result A) : on_stream enc (mkPy [] r) = mkPy [] r.
Proof. done. Qed.

(** Two steps in a row, the first of which returns. *)
Lemma on_stream_seq {A} (l1 l2 : list string) (r : Result A) :
  (on_stream enc (mkPy l1 (inr tt)) ;; on_stream enc (mkPy l2 r))
  = on_stream enc (mkPy (l1 ++ l2) r).
Proof.
  unfold on_stream. cbn. rewrite forallb_app, encodable_prefix_app.
  destruct (forallb enc l1); cbn; [|done].
  destruct (forallb enc l2); cbn; done.
Qed.

Lemma print_to_on_stream (s : string) :
  print_to enc s = on_stream enc (mkPy [s] (inr tt)).
Proof. unfold print_to, on_stream. cbn. by destruct (enc s). Qed.

Lemma for_print_to {A} (l : list A) (f : A → string) :
  for_ l (λ p, print_to enc (f p)) = on_stream enc (mkPy (f <$> l) (inr tt)).
Proof.
  induction l as [|p l IH]; [done|].
  cbn [for_ fmap list_fmap]. rewrite IH, print_to_on_stream.
  apply (on_stream_seq [f p]).
Qed.

Lemma lift_bind {A B} (a : A) (f : A → Py B) : lift (inr a) ≫= f = f a.
Proof. unfold lift. cbn. unfold py_bind. cbn. by destruct (f a). Qed.

Lemma lift_fail {A B} (e : exn) (f : A → Py B) :
  lift (inl e) ≫= f = on_stream enc (mkPy [] (inl e)).
Proof. done. Qed.

Context (rt : Runtime) (a b : gset string).

Lemma forwards_only_on_stream :
  forwards_only_to enc rt a b = on_stream enc (forwards_only rt a b).
Proof.
  unfold forwards_only_to.
  rewrite for_print_to, print_to_on_stream, on_stream_seq.
  by rewrite forwards_only_run, sorted_set_iter.
Qed.

Lemma forwards_new_on_stream :
  forwards_new_to enc rt a b = on_stream enc (forwards_new rt a b).
Proof.
  unfold forwards_new_to.
  rewrite for_print_to, print_to_on_stream, on_stream_seq.
  by rewrite forwards_new_run, sorted_set_iter.
Qed.

Lemma forwards_common_on_stream :
  forwards_common_to enc rt a b = on_stream enc (forwards_common rt a b).
Proof.
  unfold forwards_common_to.
  rewrite for_print_to, !print_to_on_stream, !on_stream_seq.
  by rewrite forwards_common_run.
Qed.

Lemma goalies_only_on_stream :
  goalies_only_to enc rt a b = on_stream enc (goalies_only rt a b).
Proof.
  unfold goalies_only_to.
  rewrite for_print_to, print_to_on_stream, on_stream_seq.
  by rewrite goalies_only_run, sorted_set_iter.
Qed.

Lemma goalies_new_on_stream :
  goalies_new_to enc rt a b = on_stream enc (goalies_new rt a b).
Proof.
  unfold goalies_new_to.
  rewrite for_print_to, print_to_on_stream, on_stream_seq.
  by rewrite goalies_new_run, sorted_set_iter.
Qed.

Lemma goalies_common_on_stream :
  goalies_common_to enc rt a b = on_stream enc (goalies_common rt a b).
Proof.
  unfold goalies_common_to.
  rewrite for_print_to, print_to_on_stream, on_stream_seq.
  by rewrite goalies_common_run, sorted_set_iter.
Qed.

End Stream.

Section MainOnStream.
Context (enc : Encoder) (rt : Runtime) (net : Network).

#[local] Arguments forwards_only : simpl never.
#[local] Arguments forwards_new : simpl never.
#[local] Arguments forwards_common : simpl never.
#[local] Arguments goalies_only : simpl never.
#[local] Arguments goalies_new : simpl never.
#[local] Arguments goalies_common : simpl never.

(** The blocks and the prints of a run, each as a cut of its ideal
    output, put in a row. *)
Ltac in_a_row :=
  rewrite ?lift_bind, ?(lift_fail enc), ?forwards_only_on_stream,
    ?forwards_new_on_stream, ?forwards_common_on_stream,
    ?goalies_only_on_stream, ?goalies_new_on_stream, ?goalies_common_on_stream,
    ?print_to_on_stream;
  rewrite ?forwards_only_run, ?forwards_new_run, ?forwards_common_run,
    ?goalies_only_run, ?goalies_new_run, ?goalies_common_run;
  rewrite ?on_stream_seq, ?on_stream_nil;
  cbn; rewrite ?app_nil_r; try reflexivity.

Lemma main_on_stream : main_to enc rt net = on_stream enc (main rt net).
Proof.
  unfold main_to, main.
  destruct (get_roster net "20242025") as [e|s24]; [done|].
  destruct (get_roster net "20252026") as [e|s25]; [done|].
  rewrite !lift_bind.
  destruct (names_of rt s24 "forwards") as [e|f24]; [in_a_row|].
  destruct (names_of rt s25 "forwards") as [e|f25]; [in_a_row|].
  rewrite !lift_bind.
  destruct (names_of rt s24 "goalies") as [e|g24]; [in_a_row|].
  destruct (names_of rt s25 "goalies") as [e|g25]; [in_a_row|].
  in_a_row.
Qed.
End MainOnStream.

(** ** What is printed when the stream can encode it *)

Lemma encodes_all_app (enc : Encoder) (l1 l2 : list string) :
  encodes_all enc (l1 ++ l2) ↔ encodes_all enc l1 ∧ encodes_all enc l2.
Proof.
  unfold encodes_all. split.
  - intros H. split; intros s Hs; apply H, elem_of_app; auto.
  - intros [H1 H2] s [Hs|Hs]%elem_of_app; auto.
Qed.

(** X1: on a stream that can encode the lines of the four blocks, "Only"
    prints its header and then, once each, the names of the first season
    that the second season lacks, and nothing else; "New" the names of
    the second season that the first lacks; no name is under both.  This
    holds for the forwards and for the goalies. *)
Theorem only_and_new_list_each_name_once (enc : Encoder) (rt : Runtime)
    (a b : gset string) :
  encodes_all enc (stdout (forwards_only rt a b) ++ stdout (forwards_new rt a b)
                   ++ stdout (goalies_only rt a b) ++ stdout (goalies_new rt a b)) →
  ∃ only new,
    forwards_only_to enc rt a b =
      mkPy ((nl +:+ "24-25 Only (" +:+ pretty (len (set_sub a b)) +:+ "):")
            :: (String.app "  - " <$> only)) (inr tt) ∧
    forwards_new_to enc rt a b =
      mkPy ((nl +:+ "25-26 New (" +:+ pretty (len (set_sub b a)) +:+ "):")
            :: (String.app "  + " <$> new)) (inr tt) ∧
    goalies_only_to enc rt a b =
      mkPy ((nl +:+ "24-25 Only:") :: (String.app "  - " <$> only)) (inr tt) ∧
    goalies_new_to enc rt a b =
      mkPy ((nl +:+ "25-26 New:") :: (String.app "  + " <$> new)) (inr tt) ∧
    NoDup only ∧ NoDup new ∧
    (∀ x, x ∈ only ↔ x ∈ a ∧ x ∉ b) ∧
    (∀ x, x ∈ new ↔ x ∈ b ∧ x ∉ a) ∧
    (∀ x, x ∈ only → x ∉ new).
Proof.
  intros (H1 & (H2 & (H3 & H4)%encodes_all_app)%encodes_all_app)%encodes_all_app.
  exists (sorted (elements (set_sub a b))), (sorted (elements (set_sub b a))).
  rewrite forwards_only_on_stream, forwards_new_on_stream,
    goalies_only_on_stream, goalies_new_on_stream.
  rewrite !on_stream_encodes_all by done.
  rewrite forwards_only_run, forwards_new_run, goalies_only_run, goalies_new_run.
  assert (∀ x, x ∈ sorted (elements (set_sub a b)) ↔ x ∈ a ∧ x ∉ b) as Honly.
  { intros x. rewrite sorted_elements_elem_of. apply elem_of_difference. }
  assert (∀ x, x ∈ sorted (elements (set_sub b a)) ↔ x ∈ b ∧ x ∉ a) as Hnew.
  { intros x. rewrite sorted_elements_elem_of. apply elem_of_difference. }
  split_and!; auto using sorted_elements_NoDup.
  intros x [Ha _]%Honly [_ Hna]%Hnew. done.
Qed.

Lemma only_and_new_list_each_name_once_witness :
  ∃ only new,
    forwards_only_to ascii_only rt_ascending example_g24 example_g25 =
      mkPy ((nl +:+ "24-25 Only ("
             +:+ pretty (len (set_sub example_g24 example_g25)) +:+ "):")
            :: (String.app "  - " <$> only)) (inr tt) ∧
    forwards_new_to ascii_only rt_ascending example_g24 example_g25 =
      mkPy ((nl +:+ "25-26 New ("
             +:+ pretty (len (set_sub example_g25 example_g24)) +:+ "):")
            :: (String.app "  + " <$> new)) (inr tt) ∧
    goalies_only_to ascii_only rt_ascending example_g24 example_g25 =
      mkPy ((nl +:+ "24-25 Only:") :: (String.app "  - " <$> only)) (inr tt) ∧
    goalies_new_to ascii_only rt_ascending example_g24 example_g25 =
      mkPy ((nl +:+ "25-26 New:") :: (String.app "  + " <$> new)) (inr tt) ∧
    NoDup only ∧ NoDup new ∧
    (∀ x, x ∈ only ↔ x ∈ example_g24 ∧ x ∉ example_g25) ∧
    (∀ x, x ∈ new ↔ x ∈ example_g25 ∧ x ∉ example_g24) ∧
    (∀ x, x ∈ only → x ∉ new).
Proof.
  apply (only_and_new_list_each_name_once ascii_only rt_ascending
           example_g24 example_g25).
  apply forallb_encodes_all. vm_compute. reflexivity.
Defined.

(** X2: the goalies' "Common" list is never cut: on a stream that can
    encode its lines, the block prints its header and then, once each,
    all the names the two seasons share, however many, and ends there
    (no "... and" line follows). *)
Theorem goalies_common_lists_every_shared_name (enc : Encoder) (rt : Runtime)
    (a b : gset string) :
  encodes_all enc (stdout (goalies_common rt a b)) →
  ∃ names,
    goalies_common_to enc rt a b =
      mkPy ((nl +:+ "Common:") :: (String.app "    " <$> names)) (inr tt) ∧
    length names = size (set_and a b) ∧
    NoDup names ∧
    (∀ x, x ∈ names ↔ x ∈ a ∧ x ∈ b).
Proof.
  intros Henc. exists (sorted (elements (set_and a b))).
  rewrite goalies_common_on_stream, on_stream_encodes_all by done.
  split; [apply goalies_common_run|].
  split; [apply elements_sorted_length|].
  split; [apply sorted_elements_NoDup|].
  intros x. rewrite sorted_elements_elem_of. apply elem_of_intersection.
Qed.

Lemma goalies_common_lists_every_shared_name_witness :
  ∃ names,
    goalies_common_to ascii_only rt_descending six_names six_names =
      mkPy ((nl +:+ "Common:") :: (String.app "    " <$> names)) (inr tt) ∧
    length names = size (set_and six_names six_names) ∧
    NoDup names ∧
    (∀ x, x ∈ names ↔ x ∈ six_names ∧ x ∈ six_names).
Proof.
  apply (goalies_common_lists_every_shared_name ascii_only rt_descending
           six_names six_names).
  apply forallb_encodes_all. vm_compute. reflexivity.
Defined.

(** X3: with five or more common forwards, on a stream that can encode
    the lines of the block, exactly five names follow the "Common"
    header, and the number on the "... and" line is the number of common
    names that were not printed. *)
Theorem five_or_more_common_forwards (enc : Encoder) (rt : Runtime)
    (a b : gset string) :
  (5 ≤ size (set_and a b))%nat →
  encodes_all enc (stdout (forwards_common rt a b)) →
  ∃ names,
    forwards_common_to enc rt a b =
      mkPy ((nl +:+ "Common (" +:+ pretty (len (set_and a b)) +:+ "):")
            :: (String.app "    " <$> names)
            ++ ["    ... and "
                +:+ pretty (Z.of_nat (size (set_and a b ∖ list_to_set names)))
                +:+ " more"])
           (inr tt) ∧
    length names = 5%nat.
Proof.
  intros Hn Henc. exists (sorted (take 5 (set_iter rt (set_and a b)))).
  assert (length (sorted (take 5 (set_iter rt (set_and a b)))) = 5%nat) as Hfive.
  { rewrite sorted_length, length_take, set_iter_length. lia. }
  split; [|done].
  rewrite forwards_common_on_stream, on_stream_encodes_all by done.
  rewrite forwards_common_run.
  assert (Z.of_nat (size (set_and a b
            ∖ list_to_set (sorted (take 5 (set_iter rt (set_and a b))))))
          = len (set_and a b) - 5) as ->; [|done].
  rewrite size_difference.
  - rewrite size_list_to_set_NoDup, Hfive
      by apply sorted_NoDup, take_set_iter_NoDup.
    unfold len. lia.
  - intros x Hx%elem_of_list_to_set. apply (take_set_iter_elem_of rt 5).
    by apply sorted_elem_of.
Qed.

Lemma five_or_more_common_forwards_witness :
  ∃ names,
    forwards_common_to ascii_only rt_descending six_names six_names =
      mkPy ((nl +:+ "Common (" +:+ pretty (len (set_and six_names six_names)) +:+ "):")
            :: (String.app "    " <$> names)
            ++ ["    ... and "
                +:+ pretty (Z.of_nat (size (set_and six_names six_names
                                            ∖ list_to_set names)))
                +:+ " more"])
           (inr tt) ∧
    length names = 5%nat.
Proof.
  apply (five_or_more_common_forwards ascii_only rt_descending six_names six_names).
  - vm_compute. lia.
  - apply forallb_encodes_all. vm_compute. reflexivity.
Defined.

(** X5: a roster compared with itself, on a stream that can encode the
    lines of its blocks: nothing under "Only" and nothing under "New"
    (the forwards headers say 0), and every goalie under "Common". *)
Theorem unchanged_roster (enc : Encoder) (rt : Runtime) (a : gset string) :
  encodes_all enc (stdout (forwards_only rt a a) ++ stdout (forwards_new rt a a)
                   ++ stdout (goalies_only rt a a) ++ stdout (goalies_new rt a a)
                   ++ stdout (goalies_common rt a a)) →
  forwards_only_to enc rt a a = mkPy [nl +:+ "24-25 Only (0):"] (inr tt) ∧
  forwards_new_to enc rt a a = mkPy [nl +:+ "25-26 New (0):"] (inr tt) ∧
  goalies_only_to enc rt a a = mkPy [nl +:+ "24-25 Only:"] (inr tt) ∧
  goalies_new_to enc rt a a = mkPy [nl +:+ "25-26 New:"] (inr tt) ∧
  goalies_common_to enc rt a a =
    mkPy ((nl +:+ "Common:") :: (String.app "    " <$> sorted (elements a))) (inr tt).
Proof.
  intros (H1 & (H2 & (H3 & (H4 & H5)%encodes_all_app)%encodes_all_app)
            %encodes_all_app)%encodes_all_app.
  rewrite forwards_only_on_stream, forwards_new_on_stream, goalies_only_on_stream,
    goalies_new_on_stream, goalies_common_on_stream.
  rewrite !on_stream_encodes_all by done.
  rewrite forwards_only_run, forwards_new_run, goalies_only_run, goalies_new_run,
    goalies_common_run.
  unfold set_sub, set_and. rewrite difference_diag_L, (idemp_L (∩) a).
  rewrite elements_empty. split_and!; done.
Qed.

Lemma unchanged_roster_witness :
  goalies_common_to ascii_only rt_ascending example_g25 example_g25 =
    mkPy ((nl +:+ "Common:")
          :: (String.app "    " <$> sorted (elements example_g25))) (inr tt).
Proof.
  apply (unchanged_roster ascii_only rt_ascending example_g25).
  apply forallb_encodes_all. vm_compute. reflexivity.
Defined.

(** X6: two rosters without a shared name, on a stream that can encode
    the lines of the blocks: "Only" lists the whole first roster and
    "New" the whole second, and the goalies' "Common" block is its header
    alone. *)
Theorem disjoint_rosters (enc : Encoder) (rt : Runtime) (a b : gset string) :
  a ## b →
  encodes_all enc (stdout (forwards_only rt a b) ++ stdout (forwards_new rt a b)
                   ++ stdout (goalies_common rt a b)) →
  forwards_only_to enc rt a b =
    mkPy ((nl +:+ "24-25 Only (" +:+ pretty (len a) +:+ "):")
          :: (String.app "  - " <$> sorted (elements a))) (inr tt) ∧
  forwards_new_to enc rt a b =
    mkPy ((nl +:+ "25-26 New (" +:+ pretty (len b) +:+ "):")
          :: (String.app "  + " <$> sorted (elements b))) (inr tt) ∧
  goalies_common_to enc rt a b = mkPy [nl +:+ "Common:"] (inr tt).
Proof.
  intros Hab (H1 & (H2 & H3)%encodes_all_app)%encodes_all_app.
  assert (set_sub a b = a) as Ha by (by apply difference_disjoint_L).
  assert (set_sub b a = b) as Hb by (by apply difference_disjoint_L).
  assert (set_and a b = ∅) as Hc by (by apply disjoint_intersection_L).
  rewrite forwards_only_on_stream, forwards_new_on_stream, goalies_common_on_stream.
  rewrite !on_stream_encodes_all by done.
  rewrite forwards_only_run, forwards_new_run, goalies_common_run, Ha, Hb, Hc.
  rewrite elements_empty. split_and!; done.
Qed.

Lemma disjoint_rosters_witness :
  goalies_common_to ascii_only rt_ascending {[ "Alex Kerfoot" ]} {[ "Dylan Guenther" ]}
  = mkPy [nl +:+ "Common:"] (inr tt).
Proof.
  apply (disjoint_rosters ascii_only rt_ascending
           {[ "Alex Kerfoot" ]} {[ "Dylan Guenther" ]}).
  - apply disjoint_singleton_l, not_elem_of_singleton. discriminate.
  - apply forallb_encodes_all. vm_compute. reflexivity.
Defined.

(** ** Runs on a stream *)

(** X12: when the forwards went through and the extraction of the
    goalies raises, on a stream that can encode the lines printed until
    then, the banner, the whole forwards report and the "GOALIES:" header
    are printed first; the script then ends with that exception, exit
    status 1, and prints no goalies line. *)
Theorem failure_in_goalies (enc : Encoder) (rt : Runtime) (net : Network)
    (season_24 season_25 : pyval) (fwd_24 fwd_25 : gset string) (e : exn) :
  get_roster net "20242025" = inr season_24 →
  get_roster net "20252026" = inr season_25 →
  names_of rt season_24 "forwards" = inr fwd_24 →
  names_of rt season_25 "forwards" = inr fwd_25 →
  names_of rt season_24 "goalies" = inl e
  ∨ (is_ok (names_of rt season_24 "goalies") = true
     ∧ names_of rt season_25 "goalies" = inl e) →
  encodes_all enc
    ([nl +:+ "=== UTAH ROSTER COMPARISON ===" +:+ nl; "FORWARDS:"]
     ++ stdout (forwards_only rt fwd_24 fwd_25)
     ++ stdout (forwards_new rt fwd_24 fwd_25)
     ++ stdout (forwards_common rt fwd_24 fwd_25)
     ++ [nl +:+ nl +:+ "GOALIES:"]) →
  main_to enc rt net =
    mkPy ([nl +:+ "=== UTAH ROSTER COMPARISON ===" +:+ nl; "FORWARDS:"]
          ++ stdout (forwards_only rt fwd_24 fwd_25)
          ++ stdout (forwards_new rt fwd_24 fwd_25)
          ++ stdout (forwards_common rt fwd_24 fwd_25)
          ++ [nl +:+ nl +:+ "GOALIES:"])
         (inl e) ∧
  exit_status (main_to enc rt net) = 1.
Proof.
  intros H24 H25 Hf24 Hf25 Hfail Henc.
  match goal with |- ?m = ?o ∧ _ => assert (m = o) as ->; [|done] end.
  rewrite main_on_stream.
  destruct (main_fails_in_goalies rt net season_24 season_25 fwd_24 fwd_25 e
              H24 H25 Hf24 Hf25 Hfail) as [-> _].
  by apply on_stream_encodes_all.
Qed.

Lemma failure_in_goalies_witness :
  main_to ascii_only rt_ascending nameless_goalie_net =
    mkPy ([nl +:+ "=== UTAH ROSTER COMPARISON ===" +:+ nl; "FORWARDS:"]
          ++ stdout (forwards_only rt_ascending
                       {[ "Alex Kerfoot"; "Clayton Keller" ]}
                       {[ "Clayton Keller"; "Dylan Guenther" ]})
          ++ stdout (forwards_new rt_ascending
                       {[ "Alex Kerfoot"; "Clayton Keller" ]}
                       {[ "Clayton Keller"; "Dylan Guenther" ]})
          ++ stdout (forwards_common rt_ascending
                       {[ "Alex Kerfoot"; "Clayton Keller" ]}
                       {[ "Clayton Keller"; "Dylan Guenther" ]})
          ++ [nl +:+ nl +:+ "GOALIES:"])
         (inl (KeyError "lastName")) ∧
  exit_status (main_to ascii_only rt_ascending nameless_goalie_net) = 1.
Proof.
  apply (failure_in_goalies ascii_only rt_ascending nameless_goalie_net
           example_24 nameless_goalie_25).
  - vm_compute. reflexivity.
  - vm_compute. reflexivity.
  - vm_compute. reflexivity.
  - vm_compute. reflexivity.
  - right. split; vm_compute; reflexivity.
  - apply forallb_encodes_all. vm_compute. reflexivity.
Defined.

Lemma exit_status_0_ok {A} (m : Py A) :
  exit_status m = 0 ↔ is_ok (result m) = true.
Proof. unfold exit_status. by destruct (result m). Qed.

(** X15: the script ends with exit status 0 exactly when both fetches
    return a document, the four extractions return a set, and the stream
    can encode every line of the report; its output is then the report:
    the banner, "FORWARDS:", the three forwards blocks, "GOALIES:" and
    the three goalies blocks, in this order. *)
Theorem run_reaches_the_end_iff (enc : Encoder) (rt : Runtime) (net : Network) :
  (exit_status (main_to enc rt net) = 0 ↔
   ∃ season_24 season_25 fwd_24 fwd_25 g_24 g_25,
     get_roster net "20242025" = inr season_24 ∧
     get_roster net "20252026" = inr season_25 ∧
     names_of rt season_24 "forwards" = inr fwd_24 ∧
     names_of rt season_25 "forwards" = inr fwd_25 ∧
     names_of rt season_24 "goalies" = inr g_24 ∧
     names_of rt season_25 "goalies" = inr g_25 ∧
     encodes_all enc (report rt fwd_24 fwd_25 g_24 g_25)) ∧
  (∀ season_24 season_25 fwd_24 fwd_25 g_24 g_25,
     get_roster net "20242025" = inr season_24 →
     get_roster net "20252026" = inr season_25 →
     names_of rt season_24 "forwards" = inr fwd_24 →
     names_of rt season_25 "forwards" = inr fwd_25 →
     names_of rt season_24 "goalies" = inr g_24 →
     names_of rt season_25 "goalies" = inr g_25 →
     encodes_all enc (report rt fwd_24 fwd_25 g_24 g_25) →
     main_to enc rt net = mkPy (report rt fwd_24 fwd_25 g_24 g_25) (inr tt)).
Proof.
  assert (∀ s24 s25 f24 f25 g24 g25,
     get_roster net "20242025" = inr s24 →
     get_roster net "20252026" = inr s25 →
     names_of rt s24 "forwards" = inr f24 →
     names_of rt s25 "forwards" = inr f25 →
     names_of rt s24 "goalies" = inr g24 →
     names_of rt s25 "goalies" = inr g25 →
     encodes_all enc (report rt f24 f25 g24 g25) →
     main_to enc rt net = mkPy (report rt f24 f25 g24 g25) (inr tt)) as Hrun.
  { intros s24 s25 f24 f25 g24 g25 E1 E2 E3 E4 E5 E6 Henc.
    rewrite main_on_stream,
      (main_completes rt net s24 s25 f24 f25 g24 g25 E1 E2 E3 E4 E5 E6).
    by apply on_stream_encodes_all. }
  split; [|exact Hrun]. split.
  - rewrite main_on_stream. unfold on_stream.
    destruct (forallb enc (stdout (main rt net))) eqn:Henc; [|done].
    intros Hok%exit_status_0_ok.
    destruct (main_ok_inv rt net Hok)
      as (s24 & s25 & f24 & f25 & g24 & g25 & E1 & E2 & E3 & E4 & E5 & E6).
    exists s24, s25, f24, f25, g24, g25. split_and!; try done.
    apply forallb_encodes_all.
    by rewrite (main_completes rt net s24 s25 f24 f25 g24 g25
                  E1 E2 E3 E4 E5 E6) in Henc.
  - intros (s24 & s25 & f24 & f25 & g24 & g25
            & E1 & E2 & E3 & E4 & E5 & E6 & Henc).
    by rewrite (Hrun s24 s25 f24 f25 g24 g25 E1 E2 E3 E4 E5 E6 Henc).
Qed.

Lemma run_reaches_the_end_iff_witness :
  exit_status (main_to ascii_only rt_ascending example_net) = 0.
Proof.
  apply (proj1 (run_reaches_the_end_iff ascii_only rt_ascending example_net)).
  exists example_24, example_25,
    {[ "Alex Kerfoot"; "Clayton Keller" ]}, {[ "Clayton Keller"; "Dylan Guenther" ]},
    example_g24, example_g25.
  split_and!; try (vm_compute; reflexivity).
  apply forallb_encodes_all. vm_compute. reflexivity.
Defined.

(** X16: a string the stream cannot encode ends the script in [print]:
    the lines before it are printed, the string and everything after it
    are not, and the script ends with [UnicodeEncodeError], exit status
    1.  On a stream that can encode every line the run is the one on a
    stream that encodes everything. *)
Theorem unencodable_line_ends_the_script (enc : Encoder) (rt : Runtime)
    (net : Network) :
  (encodes_all enc (stdout (main rt net)) → main_to enc rt net = main rt net) ∧
  (∀ before s after,
     stdout (main rt net) = before ++ s :: after →
     encodes_all enc before →
     enc s = false →
     main_to enc rt net = mkPy before (inl UnicodeEncodeError) ∧
     exit_status (main_to enc rt net) = 1).
Proof.
  rewrite main_on_stream. split.
  - apply on_stream_encodes_all.
  - intros before s after Hout Hbefore%forallb_encodes_all Hs.
    unfold on_stream. rewrite Hout, forallb_app, encodable_prefix_app, Hbefore.
    cbn. rewrite Hs. cbn. by rewrite app_nil_r.
Qed.

Lemma unencodable_line_ends_the_script_witness :
  main_to ascii_only rt_ascending umlaut_net =
    mkPy [nl +:+ "=== UTAH ROSTER COMPARISON ===" +:+ nl; "FORWARDS:";
          nl +:+ "24-25 Only (1):"]
         (inl UnicodeEncodeError) ∧
  exit_status (main_to ascii_only rt_ascending umlaut_net) = 1.
Proof.
  apply (proj2 (unencodable_line_ends_the_script ascii_only rt_ascending umlaut_net)
           [nl +:+ "=== UTAH ROSTER COMPARISON ===" +:+ nl; "FORWARDS:";
            nl +:+ "24-25 Only (1):"]
           ("  - Juuso " +:+ valimaki)
           [nl +:+ "25-26 New (0):"; nl +:+ "Common (0):"; "    ... and -5 more";
            nl +:+ nl +:+ "GOALIES:"; nl +:+ "24-25 Only:"; nl +:+ "25-26 New:";
            nl +:+ "Common:"]).
  - vm_compute. reflexivity.
  - apply forallb_encodes_all. vm_compute. reflexivity.
  - vm_compute. reflexivity.
Defined.

(** The same run, computed from [main_to] directly. *)
Example umlaut_run :
  main_to ascii_only rt_ascending umlaut_net =
    mkPy [nl +:+ "=== UTAH ROSTER COMPARISON ===" +:+ nl; "FORWARDS:";
          nl +:+ "24-25 Only (1):"]
         (inl UnicodeEncodeError).
Proof. vm_compute. reflexivity. Qed.
